(** * plainMail2HTML: the message processor

    A shallow embedding of [plain2html/core/message_processor.py] and of the
    part of CPython's [email] package that it drives, with the properties of
    the natural-language specification stated over it.

    Python objects live in a store: a message is an object at an address,
    a container's payload is the list of the addresses of its parts, and
    the methods that mutate a message update the store in place.

    A character is a code point below 256 (the Latin-1 range), which is
    what a value of type [ascii] holds; text with other code points is
    outside the model. *)

From Stdlib Require Import Ascii String List Bool Arith Lia.
From stdpp Require Import base list strings.

Local Open Scope string_scope.
Local Open Scope list_scope.

(** ** Text helpers (Python [str] methods used by the [email] package) *)

Module Str.

(** The code points below 256 that [str.lower()] changes: A to Z, and
    the capital letters of Latin-1 (192 to 222 without the multiplication
    sign, 215). *)
Definition is_upper (c : ascii) : bool :=
  let n := nat_of_ascii c in
  (Nat.leb 65 n && Nat.leb n 90)
  || (Nat.leb 192 n && Nat.leb n 222 && negb (Nat.eqb n 215)).

Definition lower_char (c : ascii) : ascii :=
  if is_upper c then ascii_of_nat (nat_of_ascii c + 32) else c.

(** [str.lower()] *)
Fixpoint lower (s : string) : string :=
  match s with
  | EmptyString => EmptyString
  | String c s' => String (lower_char c) (lower s')
  end.

(** [c.isspace()]: the characters that [str.strip()] removes.  Below 256
    these are 9 to 13, 28 to 32, 133 (next line) and 160 (no-break
    space). *)
Definition isspace (c : ascii) : bool :=
  let n := nat_of_ascii c in
  (Nat.leb 9 n && Nat.leb n 13) || (Nat.leb 28 n && Nat.leb n 32)
  || Nat.eqb n 133 || Nat.eqb n 160.

Fixpoint lstrip (s : string) : string :=
  match s with
  | EmptyString => EmptyString
  | String c s' => if isspace c then lstrip s' else s
  end.

Fixpoint rstrip (s : string) : string :=
  match s with
  | EmptyString => EmptyString
  | String c s' =>
      match rstrip s' with
      | EmptyString => if isspace c then EmptyString else String c EmptyString
      | r => String c r
      end
  end.

(** [str.strip()] *)
Definition strip (s : string) : string := rstrip (lstrip s).

(** [s.partition(sep)] for a one-character separator: the text before
    the first [sep], whether [sep] was found, and the text after it. *)
Fixpoint partition (sep : ascii) (s : string) : string * bool * string :=
  match s with
  | EmptyString => (EmptyString, false, EmptyString)
  | String c s' =>
      if Ascii.eqb c sep then (EmptyString, true, s')
      else let '(a, found, b) := partition sep s' in (String c a, found, b)
  end.

(** [s.count(c)] for a one-character pattern. *)
Fixpoint count (c : ascii) (s : string) : nat :=
  match s with
  | EmptyString => 0
  | String d s' => (if Ascii.eqb d c then 1 else 0) + count c s'
  end.

(** Whether [s.encode('ascii')] succeeds. *)
Fixpoint is_ascii (s : string) : bool :=
  match s with
  | EmptyString => true
  | String c s' => Nat.ltb (nat_of_ascii c) 128 && is_ascii s'
  end.

Definition is_empty (s : string) : bool :=
  match s with EmptyString => true | _ => false end.

(** The last character of a string, if any. *)
Fixpoint last (s : string) : option ascii :=
  match s with
  | EmptyString => None
  | String c EmptyString => Some c
  | String _ s' => last s'
  end.

(** [s[:-1]] *)
Fixpoint drop_last (s : string) : string :=
  match s with
  | EmptyString => EmptyString
  | String _ EmptyString => EmptyString
  | String c s' => String c (drop_last s')
  end.

(** [s.replace(ab, r)] for a two-character pattern [ab] and a
    one-character replacement. *)
Fixpoint replace2 (a b r : ascii) (s : string) : string :=
  match s with
  | EmptyString => EmptyString
  | String c s' =>
      match s' with
      | String d s'' =>
          if Ascii.eqb c a && Ascii.eqb d b
          then String r (replace2 a b r s'')
          else String c (replace2 a b r s')
      | EmptyString => String c EmptyString
      end
  end.

Definition backslash : ascii := ascii_of_nat 92.
Definition dquote : ascii := ascii_of_nat 34.

(** A text between double quotes. *)
Definition quoted (s : string) : string :=
  String dquote (s +:+ String dquote EmptyString).

End Str.

(** ** The message objects of the [email] package

    The model follows CPython 3's [email.message.Message] under the
    [compat32] policy.  A message has its header list (name and value, in
    order, names compared without case), its payload and its default
    content type.  A leaf's payload is a string; a container's payload is
    the list of its parts, which are objects of the store. *)

Abbreviation addr := nat.

Inductive Payload : Type :=
| PStr (s : string)
| PList (parts : list addr).

Record Message : Type := mkMessage {
  _headers : list (string * string);
  _payload : Payload;
  _default_type : string
}.

Module Email.

Import Str.

Definition set_headers (hs : list (string * string)) (m : Message) : Message :=
  mkMessage hs (_payload m) (_default_type m).

Definition name_is (name : string) (h : string * string) : bool :=
  String.eqb (lower (fst h)) (lower name).

(** [msg.get(name)], which is also [msg[name]]: the first match. *)
Definition get (name : string) (m : Message) : option string :=
  option_map snd (List.find (name_is name) (_headers m)).

(** [msg.get_all(name)]; the empty list stands for Python's [None]. *)
Definition get_all (name : string) (m : Message) : list string :=
  List.map snd (List.filter (name_is name) (_headers m)).

(** [name in msg] *)
Definition contains (name : string) (m : Message) : bool :=
  List.existsb (name_is name) (_headers m).

(** [del msg[name]]: every occurrence goes. *)
Definition delitem (name : string) (m : Message) : Message :=
  set_headers (List.filter (fun h => negb (name_is name h)) (_headers m)) m.

(** [msg[name] = val]: appended, nothing is overwritten. *)
Definition setitem (name val : string) (m : Message) : Message :=
  set_headers (_headers m ++ [(name, val)]) m.

Fixpoint replace_first (name val : string) (hs : list (string * string))
  : option (list (string * string)) :=
  match hs with
  | [] => None
  | (k, v) :: hs' =>
      if name_is name (k, v) then Some ((k, val) :: hs')
      else option_map (cons (k, v)) (replace_first name val hs')
  end.

(** [msg.replace_header(name, val)]: the first match is rewritten in
    place, keeping its position and the case of its name; [None] stands
    for the [KeyError] of a message without such a header. *)
Definition replace_header (name val : string) (m : Message) : option Message :=
  option_map (fun hs => set_headers hs m) (replace_first name val (_headers m)).

Definition is_multipart (m : Message) : bool :=
  match _payload m with PList _ => true | PStr _ => false end.

Definition _splitparam (param : string) : string * option string :=
  let '(a, sep, b) := partition ";" param in
  if sep then (strip a, Some (strip b)) else (strip a, None).

(** [msg.get_content_type()] *)
Definition get_content_type (m : Message) : string :=
  match get "content-type" m with
  | None => _default_type m
  | Some value =>
      let ctype := lower (fst (_splitparam value)) in
      if Nat.eqb (count "/" ctype) 1 then ctype else "text/plain"
  end.

(** *** Header parameters

    [segments] is the loop of [_parseparam]: a parameter ends at a
    semicolon that is the first character of what is left, or that has
    an even number of double quotes not preceded by a backslash before
    it. *)
Fixpoint segments (at_start prev_bs odd : bool) (s : string) : list string :=
  match s with
  | EmptyString => [EmptyString]
  | String c s' =>
      if Ascii.eqb c ";" && (at_start || negb odd)
      then EmptyString :: segments true false false s'
      else
        let odd' := if Ascii.eqb c dquote && negb prev_bs then negb odd else odd in
        match segments false (Ascii.eqb c backslash) odd' s' with
        | seg :: rest => String c seg :: rest
        | [] => [String c EmptyString]
        end
  end.

Definition _parseparam (s : string) : list string :=
  List.map
    (fun f =>
       let '(a, sep, b) := partition "=" f in
       strip (if sep then lower (strip a) +:+ "=" +:+ strip b else f))
    (segments true false false s).

(** [utils.quote] and [utils.unquote] *)
Definition quote (s : string) : string :=
  String.concat EmptyString
    (List.map
       (fun c =>
          if Ascii.eqb c backslash then String backslash (String backslash EmptyString)
          else if Ascii.eqb c dquote then String backslash (String dquote EmptyString)
          else String c EmptyString)
       (list_ascii_of_string s)).

Definition unquote (s : string) : string :=
  match s with
  | String c (String _ _ as s') =>
      if Ascii.eqb c dquote && bool_decide (last s' = Some dquote)
      then replace2 backslash dquote dquote
             (replace2 backslash backslash backslash (drop_last s'))
      else if Ascii.eqb c "<" && bool_decide (last s' = Some ">"%char)
      then drop_last s'
      else s
  | _ => s
  end.

(** [utils.decode_params] on parameters that are not RFC 2231
    continuations: the first entry is kept, the value of every other
    one is unquoted and quoted again.  The decoding of extended
    parameters (a name with an asterisk, as in [charset*=...] and
    [charset*0=...]) is not modelled: this function is the library's on
    the headers that [plain_params] accepts. *)
Definition decode_params (params : list (string * string)) : list (string * string) :=
  match params with
  | [] => []
  | p0 :: rest =>
      p0 :: List.map (fun '(name, value) =>
                        (name, quoted (quote (unquote value))))
                     rest
  end.

Definition _get_params_preserve (value : string) : list (string * string) :=
  decode_params
    (List.map
       (fun p =>
          let '(name, sep, val) := partition "=" p in
          if sep then (strip name, strip val) else (strip p, EmptyString))
       (_parseparam value)).

(** The Content-Type field has no extended parameter: no parameter name
    carries an asterisk, so that [rfc2231_continuation] matches none of
    them.  The first entry, the content type itself, is not looked at by
    [decode_params]. *)
Definition extended_name (name : string) : bool :=
  List.existsb (Ascii.eqb "*") (list_ascii_of_string name).

Definition plain_params (m : Message) : bool :=
  match get "content-type" m with
  | None => true
  | Some value =>
      List.forallb (fun p => negb (extended_name (fst p)))
        (List.tl (_get_params_preserve value))
  end.

(** [msg.get_params(header=name)], unquoted; the empty list when the
    header is missing. *)
Definition get_params (name : string) (m : Message) : list (string * string) :=
  match get name m with
  | None => []
  | Some value => List.map (fun '(k, v) => (k, unquote v)) (_get_params_preserve value)
  end.

(** [msg.get_param(param, header=name)] *)
Definition get_param (param name : string) (m : Message) : option string :=
  option_map snd
    (List.find (fun '(k, _) => String.eqb (lower k) (lower param)) (get_params name m)).

(** [msg.get_content_charset()] *)
Definition get_content_charset (m : Message) : option string :=
  match get_param "charset" "content-type" m with
  | None => None
  | Some charset => if is_ascii charset then Some (lower charset) else None
  end.

End Email.

(** ** Codecs

    The character codecs and the base64 and quoted-printable body
    encoders of the library are parameters of the development.  A codec
    can raise: [LookupError] when Python knows no codec of that name,
    [UnicodeError] when the text has a character that the codec cannot
    encode. *)
Inductive CodecError : Type :=
| UnknownEncoding   (* [LookupError: unknown encoding] *)
| Unencodable.      (* [UnicodeEncodeError], [UnicodeDecodeError] *)

Class Codecs : Type := {
  (** What [s.encode(codec)] raises, if it raises *)
  str_encode_error : string -> string -> option CodecError;
  (** [s.encode(codec)], when it does not raise *)
  str_encode : string -> string -> string;
  (** [email.base64mime.body_encode] *)
  base64_body_encode : string -> string;
  (** [email.quoprimime.body_encode] *)
  quopri_body_encode : string -> string;
  (** [utils.encode_rfc2231(s, 'utf-8', '')] *)
  encode_rfc2231 : string -> string
}.

Module Charset.

Import Str.

Inductive encoding : Type := QP | BASE64 | SHORTEST.

Definition CHARSETS
  : list (string * (option encoding * option encoding * option string)) :=
  [ ("iso-8859-1", (Some QP, Some QP, None));
    ("iso-8859-2", (Some QP, Some QP, None));
    ("iso-8859-3", (Some QP, Some QP, None));
    ("iso-8859-4", (Some QP, Some QP, None));
    ("iso-8859-9", (Some QP, Some QP, None));
    ("iso-8859-10", (Some QP, Some QP, None));
    ("iso-8859-13", (Some QP, Some QP, None));
    ("iso-8859-14", (Some QP, Some QP, None));
    ("iso-8859-15", (Some QP, Some QP, None));
    ("iso-8859-16", (Some QP, Some QP, None));
    ("windows-1252", (Some QP, Some QP, None));
    ("viscii", (Some QP, Some QP, None));
    ("us-ascii", (None, None, None));
    ("big5", (Some BASE64, Some BASE64, None));
    ("gb2312", (Some BASE64, Some BASE64, None));
    ("euc-jp", (Some BASE64, None, Some "iso-2022-jp"));
    ("shift_jis", (Some BASE64, None, Some "iso-2022-jp"));
    ("iso-2022-jp", (Some BASE64, None, None));
    ("koi8-r", (Some BASE64, Some BASE64, None));
    ("utf-8", (Some SHORTEST, Some BASE64, Some "utf-8")) ].

Definition ALIASES : list (string * string) :=
  [ ("latin_1", "iso-8859-1"); ("latin-1", "iso-8859-1");
    ("latin_2", "iso-8859-2"); ("latin-2", "iso-8859-2");
    ("latin_3", "iso-8859-3"); ("latin-3", "iso-8859-3");
    ("latin_4", "iso-8859-4"); ("latin-4", "iso-8859-4");
    ("latin_5", "iso-8859-9"); ("latin-5", "iso-8859-9");
    ("latin_6", "iso-8859-10"); ("latin-6", "iso-8859-10");
    ("latin_7", "iso-8859-13"); ("latin-7", "iso-8859-13");
    ("latin_8", "iso-8859-14"); ("latin-8", "iso-8859-14");
    ("latin_9", "iso-8859-15"); ("latin-9", "iso-8859-15");
    ("latin_10", "iso-8859-16"); ("latin-10", "iso-8859-16");
    ("cp949", "ks_c_5601-1987");
    ("euc_jp", "euc-jp");
    ("euc_kr", "euc-kr");
    ("ascii", "us-ascii") ].

(** [d.get(key, default)] on a table *)
Definition lookup {V : Type} (key : string) (default : V) (d : list (string * V)) : V :=
  match List.find (fun kv => String.eqb (fst kv) key) d with
  | Some kv => snd kv
  | None => default
  end.

Record t : Type := mk {
  input_charset : string;
  header_encoding : option encoding;
  body_encoding : option encoding;
  output_charset : string
}.

(** [Charset(input_charset)].  The constructor's [CharsetError] for a
    name that is not ASCII is not modelled: the names the processor
    passes come from [get_content_charset], which returns ASCII only. *)
Definition Charset (name : string) : t :=
  let input := lookup (lower name) (lower name) ALIASES in
  let '(henc, benc, conv) := lookup input (Some SHORTEST, Some BASE64, None) CHARSETS in
  let conv' := match conv with
               | Some c => if is_empty c then input else c
               | None => input
               end in
  mk input henc benc (lookup conv' conv' ALIASES).

Definition get_output_charset (cs : t) : string :=
  if is_empty (output_charset cs) then input_charset cs else output_charset cs.

(** [charset != charset.get_output_charset()] *)
Definition converts (cs : t) : bool :=
  negb (String.eqb (lower (input_charset cs)) (lower (get_output_charset cs))).

Section WithCodecs.
Context `{Codecs}.

(** What [s.encode(codec)] raises, if it raises: the utf-8 codec takes
    every text, the us-ascii codec takes ASCII text only. *)
Definition encode_error (codec s : string) : option CodecError :=
  if String.eqb codec "utf-8" then None
  else if String.eqb codec "us-ascii"
       then (if is_ascii s then None else Some Unencodable)
       else str_encode_error codec s.

(** [s.encode(codec)], when it does not raise: the identity on ASCII
    text for the two codecs the [MIMEText] constructor picks by itself. *)
Definition encode (codec s : string) : string :=
  if is_ascii s && (String.eqb codec "us-ascii" || String.eqb codec "utf-8")
  then s else str_encode codec s.

(** What [charset.body_encode(string)] raises for a [str] argument, if
    it raises: the text is encoded for the output charset, and without a
    body encoding the bytes are read back as ASCII. *)
Definition body_encode_error (cs : t) (s : string) : option CodecError :=
  if is_empty s then None
  else
    match encode_error (output_charset cs) s with
    | Some e => Some e
    | None =>
        match body_encoding cs with
        | Some BASE64 | Some QP => None
        | _ => if is_ascii (encode (output_charset cs) s) then None
               else Some Unencodable
        end
    end.

(** [charset.body_encode(string)]; [is_str] tells a [str] argument
    from a [bytes] one. *)
Definition body_encode (cs : t) (is_str : bool) (s : string) : string :=
  if is_empty s then s
  else
    let b := if is_str then encode (output_charset cs) s else s in
    match body_encoding cs with
    | Some BASE64 => base64_body_encode b
    | Some QP => quopri_body_encode b
    | _ => b
    end.

End WithCodecs.

End Charset.

(** ** Building and re-encoding messages ([email.message], [email.mime]) *)

Module Mime.

Import Str Email.

Section WithCodecs.
Context `{Codecs}.

Definition SEMISPACE : string := "; ".

(** [_formatparam(param, value)] with its default [quote=True] *)
Definition _formatparam (param value : string) : string :=
  if is_empty value then param
  else if is_ascii value
       then param +:+ "=" +:+ quoted (quote value)
       else param +:+ "*=" +:+ encode_rfc2231 value.

(** [msg.add_header(name, value, charset=cs)] *)
Definition add_header_charset (name value cs : string) (m : Message) : Message :=
  setitem name (value +:+ SEMISPACE +:+ _formatparam "charset" cs) m.

Definition join_param (ctype append_param : string) : string :=
  if is_empty ctype then append_param else ctype +:+ SEMISPACE +:+ append_param.

Definition truthy (v : option string) : bool :=
  match v with Some s => negb (is_empty s) | None => false end.

(** [msg.set_param(param, value)] on the Content-Type header *)
Definition set_param (param value : string) (m : Message) : Message :=
  let header := "Content-Type" in
  let ctype0 := if contains header m then get header m else Some "text/plain" in
  let ctype :=
    if negb (truthy (get_param param header m))
    then
      (if truthy ctype0
       then default EmptyString ctype0 +:+ SEMISPACE +:+ _formatparam param value
       else _formatparam param value)
    else
      List.fold_left
        (fun ctype '(old_param, old_value) =>
           join_param ctype
             (if String.eqb (lower old_param) (lower param)
              then _formatparam param value
              else _formatparam old_param old_value))
        (get_params header m) EmptyString in
  if bool_decide (Some ctype = get header m) then m
  else setitem header ctype (delitem header m).

(** [msg.del_param(param)] on the Content-Type header *)
Definition del_param (param : string) (m : Message) : Message :=
  let header := "content-type" in
  if negb (contains header m) then m
  else
    let new_ctype :=
      List.fold_left
        (fun ctype '(p, v) =>
           if String.eqb (lower p) (lower param) then ctype
           else join_param ctype (_formatparam p v))
        (get_params header m) EmptyString in
    if bool_decide (Some new_ctype = get header m) then m
    else setitem header new_ctype (delitem header m).

Definition set_payload (p : Payload) (m : Message) : Message :=
  mkMessage (_headers m) p (_default_type m).

(** The payload of a leaf under a text transformation; a container's
    list of parts is left alone (the processor re-encodes leaves only). *)
Definition map_text (f : string -> string) (m : Message) : Message :=
  match _payload m with
  | PStr s => set_payload (PStr (f s)) m
  | PList _ => m
  end.

(** [encoders.encode_7or8bit(msg)] *)
Definition encode_7or8bit (m : Message) : Message :=
  match _payload m with
  | PStr s =>
      setitem "Content-Transfer-Encoding" (if is_ascii s then "7bit" else "8bit") m
  | PList _ => setitem "Content-Transfer-Encoding" "7bit" m
  end.

(** [msg.set_charset(charset)] for [None] or the name of a charset: the
    message that it leaves when it does not raise. *)
Definition set_charset (charset : option string) (m : Message) : Message :=
  match charset with
  | None => del_param "charset" m
  | Some name =>
      let cs := Charset.Charset name in
      let m1 := if contains "MIME-Version" m then m
                else setitem "MIME-Version" "1.0" m in
      let m2 := if contains "Content-Type" m1
                then set_param "charset" (Charset.get_output_charset cs) m1
                else add_header_charset "Content-Type" "text/plain"
                       (Charset.get_output_charset cs) m1 in
      let m3 := if Charset.converts cs
                then map_text (Charset.body_encode cs true) m2
                else m2 in
      if contains "Content-Transfer-Encoding" m3 then m3
      else
        match Charset.body_encoding cs with
        | Some Charset.QP =>
            setitem "Content-Transfer-Encoding" "quoted-printable"
              (map_text (Charset.body_encode cs false) m3)
        | Some Charset.BASE64 =>
            setitem "Content-Transfer-Encoding" "base64"
              (map_text (Charset.body_encode cs false) m3)
        | _ => encode_7or8bit m3
        end
  end.

(** [msg.set_payload(text, charset)] with a charset name *)
Definition set_payload_charset (text charset : string) (m : Message) : Message :=
  let cs := Charset.Charset charset in
  set_charset (Some charset)
    (set_payload (PStr (Charset.encode (Charset.output_charset cs) text)) m).

(** What [MIMEText(_text, _subtype, _charset)] raises, if it raises:
    [set_payload] encodes the text for the output charset, and
    [set_charset] encodes the payload once more when the charset is
    converted on output. *)
Definition MIMEText_error (_text : string) (_charset : option string)
  : option CodecError :=
  let charset :=
    match _charset with
    | None => if is_ascii _text then "us-ascii" else "utf-8"
    | Some c => c
    end in
  let cs := Charset.Charset charset in
  match Charset.encode_error (Charset.output_charset cs) _text with
  | Some e => Some e
  | None =>
      if Charset.converts cs
      then Charset.body_encode_error cs
             (Charset.encode (Charset.output_charset cs) _text)
      else None
  end.

(** The object that [MIMEText(_text, _subtype, _charset)] builds, when
    it does not raise *)
Definition MIMEText (_text _subtype : string) (_charset : option string) : Message :=
  let charset :=
    match _charset with
    | None => if is_ascii _text then "us-ascii" else "utf-8"
    | Some c => c
    end in
  let m0 := mkMessage [] (PStr EmptyString) "text/plain" in
  let m1 := add_header_charset "Content-Type" ("text/" +:+ _subtype) charset m0 in
  let m2 := setitem "MIME-Version" "1.0" m1 in
  set_payload_charset _text charset m2.

(** The object that [MIMEMultipart(_subtype)] builds *)
Definition MIMEMultipart (_subtype : string) : Message :=
  let m0 := mkMessage [] (PList []) "text/plain" in
  setitem "MIME-Version" "1.0"
    (setitem "Content-Type" ("multipart/" +:+ _subtype) m0).

(** [msg.attach(part)]; [None] stands for the [TypeError] of a message
    whose payload is a string. *)
Definition attach (part : addr) (m : Message) : option Message :=
  match _payload m with
  | PList parts => Some (set_payload (PList (parts ++ [part])) m)
  | PStr _ => None
  end.

End WithCodecs.

End Mime.

(** ** [plain2html.core.message_utils]

    The module is imported by the processor and is not among the sources;
    its two functions are modelled from what the specification says of
    them. *)

Module MessageUtils.

Definition content_structural (h : string * string) : bool :=
  Email.name_is "Content-Type" h || Email.name_is "Content-Transfer-Encoding" h.

(** Modelled from the spec: [clone_header(name, src_msg, dst_msg)] of
    [message_utils.py], which is not among the sources.  It copies the
    fields of the given name from one message to another.  When the
    source has such fields, the destination afterwards carries exactly
    these under that name; when it has none, there is nothing to copy
    and the destination is as it was.  The other fields of the
    destination, its payload and the source are never touched. *)
Definition clone_header (name : string) (src dst : Message) : Message :=
  if Email.contains name src
  then Email.set_headers
         (List.filter (fun h => negb (Email.name_is name h)) (_headers dst)
            ++ List.filter (Email.name_is name) (_headers src))
         dst
  else dst.

(** Modelled from the spec: [convert_text_to_alternative(msg)] of
    [message_utils.py], which is not among the sources.  It derives a
    new multipart/alternative container from the message: the fields
    that do not describe the structure of the content (subject, from,
    to, ...) are retained, the container starts without parts, and the
    message itself is not touched. *)
Definition convert_text_to_alternative (m : Message) : Message :=
  mkMessage
    (List.filter (fun h => negb (content_structural h)) (_headers m)
       ++ [("Content-Type", "multipart/alternative")])
    (PList []) "text/plain".

End MessageUtils.

(** ** The store, exceptions and the monad of the processor *)

Section Processor.

(** What the rendering function may raise. *)
Variable E : Type.
Context `{Codecs}.

Inductive exn : Type :=
| MessageTypeError (value : string)  (* the exception class of the module *)
| RendererError (e : E)              (* raised inside [html_parser] *)
| TypeError
| IndexError
| KeyError
| AttributeError
| LookupError                        (* a codec that Python does not know *)
| UnicodeError                       (* text that a codec cannot encode *)
| NoSuchObject.                      (* an address outside the store *)

Definition codec_exn (e : CodecError) : exn :=
  match e with
  | UnknownEncoding => LookupError
  | Unencodable => UnicodeError
  end.

(** The store of message objects, and the log of the arguments with
    which the rendering function has been called. *)
Record State : Type := mkState {
  heap : list Message;
  rendered : list Payload
}.

Definition M (A : Type) : Type := State -> (exn + A) * State.

Definition ret {A} (a : A) : M A := fun st => (inr a, st).

Definition raise {A} (e : exn) : M A := fun st => (inl e, st).

Definition bind {A B} (c : M A) (k : A -> M B) : M B :=
  fun st =>
    match c st with
    | (inr a, st') => k a st'
    | (inl e, st') => (inl e, st')
    end.

Notation "x <- c ;; k" := (bind c (fun x => k))
  (at level 100, c at next level, right associativity).
Notation "c ;;; k" := (bind c (fun _ => k))
  (at level 100, right associativity).

Definition deref (a : addr) : M Message :=
  fun st =>
    match heap st !! a with
    | Some m => (inr m, st)
    | None => (inl NoSuchObject, st)
    end.

Definition alloc (m : Message) : M addr :=
  fun st => (inr (length (heap st)), mkState (heap st ++ [m]) (rendered st)).

Definition store (a : addr) (m : Message) : M unit :=
  fun st =>
    match heap st !! a with
    | Some _ => (inr tt, mkState (<[a := m]> (heap st)) (rendered st))
    | None => (inl NoSuchObject, st)
    end.

(** A method that updates its object in place. *)
Definition modify (a : addr) (f : Message -> Message) : M unit :=
  m <- deref a ;; store a (f m).

(** A method that updates its object in place or raises. *)
Definition modify_or (e : exn) (a : addr) (f : Message -> option Message) : M unit :=
  m <- deref a ;;
  match f m with
  | Some m' => store a m'
  | None => raise e
  end.

(** *** The methods of the library, on objects of the store *)

Definition is_multipart (msg : addr) : M bool :=
  m <- deref msg ;; ret (Email.is_multipart m).

Definition get_content_type (msg : addr) : M string :=
  m <- deref msg ;; ret (Email.get_content_type m).

Definition get_content_charset (msg : addr) : M (option string) :=
  m <- deref msg ;; ret (Email.get_content_charset m).

Definition get_payload (msg : addr) : M Payload :=
  m <- deref msg ;; ret (_payload m).

Definition set_payload (msg : addr) (p : Payload) : M unit :=
  modify msg (Mime.set_payload p).

(** [msg.set_charset(charset)].  What the conversion of a payload for
    the euc-jp and shift_jis charsets can raise is not modelled: the
    call made in 8-bit mode returns here for every charset. *)
Definition set_charset (msg : addr) (charset : option string) : M unit :=
  modify msg (Mime.set_charset charset).

Definition replace_header (msg : addr) (name val : string) : M unit :=
  modify_or KeyError msg (Email.replace_header name val).

Definition attach (msg part : addr) : M unit :=
  modify_or TypeError msg (Mime.attach part).

Definition MIMEText (_text _subtype : string) (_charset : option string) : M addr :=
  match Mime.MIMEText_error _text _charset with
  | Some e => raise (codec_exn e)
  | None => alloc (Mime.MIMEText _text _subtype _charset)
  end.

Definition MIMEMultipart (_subtype : string) : M addr :=
  alloc (Mime.MIMEMultipart _subtype).

(** [payload[0]] on what [get_payload()] returned: a string has no
    message as its first element. *)
Definition first_part (p : Payload) : M addr :=
  match p with
  | PList (a :: _) => ret a
  | PList [] => raise IndexError
  | PStr _ => raise AttributeError
  end.

(** [msg.get_payload()[0] = part] *)
Definition set_first_part (msg part : addr) : M unit :=
  modify_or IndexError msg
    (fun m =>
       match _payload m with
       | PList ((_ :: _) as parts) => Some (Mime.set_payload (PList (<[0 := part]> parts)) m)
       | _ => None
       end).

(** *** [plain2html.core.message_utils], on objects of the store *)

Definition clone_header (name : string) (src_msg dst_msg : addr) : M unit :=
  src <- deref src_msg ;;
  modify dst_msg (MessageUtils.clone_header name src).

Definition convert_text_to_alternative (msg : addr) : M addr :=
  m <- deref msg ;;
  alloc (MessageUtils.convert_text_to_alternative m).

(** ** [message_processor.py] *)

Record MessageProcessor : Type := mkMessageProcessor {
  preferred_charset : string;
  html_parser : option (Payload -> E + string);
  allow_8bit : bool
}.

(** [MessageProcessor.__init__] *)
Definition __init__ (html_parser : option (Payload -> E + string)) (allow_8bit : bool)
  : MessageProcessor :=
  mkMessageProcessor "utf-8" html_parser allow_8bit.

(** [self.html_parser(text)]: calling [None] is a [TypeError]; the call
    is logged, and what the function raises propagates. *)
Definition call_html_parser (self : MessageProcessor) (text : Payload) : M string :=
  match html_parser self with
  | None => raise TypeError
  | Some f =>
      fun st =>
        let st' := mkState (heap st) (rendered st ++ [text]) in
        match f text with
        | inl e => (inl (RendererError e), st')
        | inr html_str => (inr html_str, st')
        end
  end.

(** [MessageProcessor._create_plain_message] *)
Definition _create_plain_message (self : MessageProcessor) (msg : addr) : M addr :=
  text_msg <- MIMEText "" "plain" None ;;
  payload <- get_payload msg ;;
  set_payload text_msg payload ;;;
  clone_header "Content-Type" msg text_msg ;;;
  clone_header "Content-Transfer-Encoding" msg text_msg ;;;
  ret text_msg.

(** [MessageProcessor._create_html_message] *)
Definition _create_html_message (self : MessageProcessor) (msg : addr) : M addr :=
  charset <- get_content_charset msg ;;
  text <- get_payload msg ;;
  html_str <- call_html_parser self text ;;
  if allow_8bit self then
    html_msg <- MIMEText "" "html" None ;;
    set_payload html_msg (PStr html_str) ;;;
    set_charset html_msg charset ;;;
    (if negb (bool_decide (charset = Some "us-ascii"))
     then replace_header html_msg "Content-Transfer-Encoding" "8bit"
     else ret tt) ;;;
    ret html_msg
  else
    MIMEText html_str "html" charset.

(** [MessageProcessor._add_html_to_plain] *)
Definition _add_html_to_plain (self : MessageProcessor) (msg : addr) : M addr :=
  multipart <- is_multipart msg ;;
  mismatch <- (if multipart then ret true
               else ctype <- get_content_type msg ;;
                    ret (negb (String.eqb ctype "text/plain"))) ;;
  if mismatch then
    ctype <- get_content_type msg ;;
    raise (MessageTypeError ("Expected text/plain, but got " +:+ ctype +:+ "."))
  else
    new_msg <- convert_text_to_alternative msg ;;
    text_part <- _create_plain_message self msg ;;
    html_part <- _create_html_message self msg ;;
    attach new_msg text_part ;;;
    attach new_msg html_part ;;;
    ret new_msg.

(** [MessageProcessor._add_html_to_multipart] *)
Definition _add_html_to_multipart (self : MessageProcessor) (msg : addr) : M addr :=
  multipart <- is_multipart msg ;;
  if negb multipart then
    ctype <- get_content_type msg ;;
    raise (MessageTypeError ("Expected multipart/alternative, but got " +:+ ctype +:+ "."))
  else
    parts <- get_payload msg ;;
    text_part <- first_part parts ;;
    part_type <- get_content_type text_part ;;
    if negb (String.eqb part_type "text/plain") then
      ctype <- get_content_type msg ;;
      raise (MessageTypeError
               ("Expected component 1 to be text/plain, but got " +:+ ctype +:+ "."))
    else
      html_part <- _create_html_message self text_part ;;
      alt_msg <- MIMEMultipart "alternative" ;;
      attach alt_msg text_part ;;;
      attach alt_msg html_part ;;;
      set_first_part msg alt_msg ;;;
      ret msg.

(** [MessageProcessor.generate_html_msg_from_file], from the message
    that [email.message_from_file(fp)] has parsed into the store. *)
Definition generate_html_msg_from_file (self : MessageProcessor) (msg : addr) : M addr :=
  multipart <- is_multipart msg ;;
  if multipart then _add_html_to_multipart self msg
  else _add_html_to_plain self msg.

End Processor.

Arguments MessageTypeError {E} value.
Arguments RendererError {E} e.
Arguments TypeError {E}.
Arguments IndexError {E}.
Arguments KeyError {E}.
Arguments AttributeError {E}.
Arguments LookupError {E}.
Arguments UnicodeError {E}.
Arguments codec_exn {E} e.
Arguments NoSuchObject {E}.
Arguments ret {E A} a.
Arguments raise {E A} e.
Arguments bind {E A B} c k.
Arguments deref {E} a.
Arguments alloc {E} m.
Arguments store {E} a m.
Arguments modify {E} a f.
Arguments modify_or {E} e a f.
Arguments preferred_charset {E} m.
Arguments html_parser {E} m.
Arguments allow_8bit {E} m.
Arguments __init__ {E} html_parser allow_8bit.
Arguments call_html_parser {E} self text.
Arguments _create_plain_message {E _} self msg.
Arguments _create_html_message {E _} self msg.
Arguments _add_html_to_plain {E _} self msg.
Arguments _add_html_to_multipart {E _} self msg.
Arguments generate_html_msg_from_file {E _} self msg.

(** ** The objects that the processor builds *)

Section Built.

Context `{Codecs}.

(** The leaf that [_create_plain_message] builds from a message. *)
Definition text_leaf (m : Message) : Message :=
  MessageUtils.clone_header "Content-Transfer-Encoding" m
    (MessageUtils.clone_header "Content-Type" m
       (Mime.set_payload (_payload m) (Mime.MIMEText EmptyString "plain" None))).

(** The HTML leaf of the 8-bit mode after [set_charset], before the
    transfer encoding is overridden. *)
Definition html_leaf_charset (charset : option string) (html_str : string) : Message :=
  Mime.set_charset charset
    (Mime.set_payload (PStr html_str) (Mime.MIMEText EmptyString "html" None)).

(** The leaf that [_create_html_message] builds from the charset of the
    text part and the rendered text. *)
Definition html_leaf (allow_8bit : bool) (charset : option string) (html_str : string)
  : Message :=
  if allow_8bit then
    let m := html_leaf_charset charset html_str in
    if negb (bool_decide (charset = Some "us-ascii"))
    then default m (Email.replace_header "Content-Transfer-Encoding" "8bit" m)
    else m
  else Mime.MIMEText html_str "html" charset.

(** What the construction of the HTML leaf raises, if it raises. *)
Definition html_leaf_error (allow_8bit : bool) (charset : option string)
  (html_str : string) : option CodecError :=
  if allow_8bit then None else Mime.MIMEText_error html_str charset.

(** The library builds the HTML leaf: in standard mode the codec of the
    charset takes the rendered text; in 8-bit mode the charset is not one
    that the library converts on output. *)
Definition html_leaf_built (allow_8bit : bool) (charset : option string)
  (html_str : string) : Prop :=
  if allow_8bit then
    match charset with
    | Some name => Charset.converts (Charset.Charset name) = false
    | None => True
    end
  else Mime.MIMEText_error html_str charset = None.

(** The alternative container of the multipart path. *)
Definition alternative (text_part html_part : addr) : Message :=
  Mime.set_payload (PList [text_part; html_part]) (Mime.MIMEMultipart "alternative").

(** The alternative container of the plain path. *)
Definition alternative_of (m : Message) (text_part html_part : addr) : Message :=
  Mime.set_payload (PList [text_part; html_part])
    (MessageUtils.convert_text_to_alternative m).

End Built.

Section Stores.

Variable E : Type.
Context `{Codecs}.

(** The store after the plain path and after the multipart path. *)
Definition plain_heap (self : MessageProcessor E) (h : list Message) (m : Message)
  (html_str : string) : list Message :=
  h ++ [alternative_of m (length h + 1) (length h + 2);
        text_leaf m;
        html_leaf (allow_8bit self) (Email.get_content_charset m) html_str].

Definition multipart_heap (self : MessageProcessor E) (h : list Message) (msg : addr)
  (m : Message) (t : addr) (rest : list addr) (tm : Message) (html_str : string)
  : list Message :=
  <[msg := Mime.set_payload (PList (length h + 1 :: rest)) m]>
    (h ++ [html_leaf (allow_8bit self) (Email.get_content_charset tm) html_str;
           alternative t (length h)]).

(** The sanity check of the plain path. *)
Definition plain_mismatch (m : Message) : bool :=
  Email.is_multipart m || negb (String.eqb (Email.get_content_type m) "text/plain").

End Stores.

(** The text leaf of a message of the store: the message itself, or the
    first part of a container. *)
Definition text_leaf_of (h : list Message) (msg : addr) : option addr :=
  match h !! msg with
  | Some m =>
      match _payload m with
      | PStr _ => Some msg
      | PList (t :: _) => Some t
      | PList [] => None
      end
  | None => None
  end.

(** The object at an address has the given content type. *)
Definition part_type (h : list Message) (a : addr) (ctype : string) : Prop :=
  exists x, h !! a = Some x /\ Email.get_content_type x = ctype.

(** A list of parts has a text/plain part and a text/html part, and
    every text/plain part stands before every text/html part. *)
Definition text_before_html (h : list Message) (parts : list addr) : Prop :=
  (exists i j a b,
      parts !! i = Some a /\ part_type h a "text/plain" /\
      parts !! j = Some b /\ part_type h b "text/html") /\
  (forall i j a b,
      parts !! i = Some a -> part_type h a "text/plain" ->
      parts !! j = Some b -> part_type h b "text/html" ->
      i < j).

Arguments plain_heap {E _} self h m html_str.
Arguments multipart_heap {E _} self h msg m t rest tm html_str.

(** ** Example inputs *)

Module Examples.

(** Codecs for ASCII text that leave the text as it is. *)
Definition codecs : Codecs :=
  {| str_encode_error := fun _ _ => None;
     str_encode := fun _ s => s;
     base64_body_encode := fun s => s;
     quopri_body_encode := fun s => s;
     encode_rfc2231 := fun s => s |}.

(** A renderer that wraps a text in a paragraph, and one that raises. *)
Definition render (p : Payload) : unit + string :=
  match p with
  | PStr s => inr ("<p>" +:+ s +:+ "</p>")
  | PList _ => inl tt
  end.

Definition failing_render (p : Payload) : unit + string := inl tt.

(** A renderer whose markup has a character outside ASCII (233, e with
    an acute accent). *)
Definition accent_render (p : Payload) : unit + string :=
  inr ("<p>" +:+ String (ascii_of_nat 233) "</p>").

Definition text_msg : Message :=
  mkMessage [("Subject", "hi");
             ("Content-Type", "text/plain; charset=utf-8");
             ("Content-Transfer-Encoding", "8bit")]
            (PStr "hello") "text/plain".

Definition ascii_msg : Message :=
  mkMessage [("Content-Type", "text/plain; charset=us-ascii")]
            (PStr "hello") "text/plain".

Definition html_msg : Message :=
  mkMessage [("Content-Type", "text/html")] (PStr "<b>hello</b>") "text/plain".

Definition pdf_msg : Message :=
  mkMessage [("Content-Type", "application/pdf")] (PStr "%PDF") "text/plain".

(** A store with a multipart/mixed message at address 0, its parts at 1
    and 2. *)
Definition mixed_msg : Message :=
  mkMessage [("Subject", "hi"); ("Content-Type", "multipart/mixed; boundary=xyz")]
            (PList [1; 2]) "text/plain".

Definition mixed_store : State := mkState [mixed_msg; text_msg; pdf_msg] [].

Definition html_first_store : State := mkState [mixed_msg; html_msg; pdf_msg] [].

Definition text_store : State := mkState [text_msg] [].

(** A store with a multipart/alternative container at address 0, its
    text/plain part at 1 and its text/html part at 2: the shape of an
    already transformed message. *)
Definition transformed_msg : Message :=
  mkMessage [("Subject", "hi"); ("Content-Type", "multipart/alternative")]
            (PList [1; 2]) "text/plain".

Definition transformed_store : State := mkState [transformed_msg; text_msg; html_msg] [].

(** A text message without a Content-Type field, and a container
    without parts. *)
Definition bare_msg : Message :=
  mkMessage [("Subject", "hi")] (PStr "hello") "text/plain".

Definition empty_container : Message :=
  mkMessage [("Content-Type", "multipart/mixed")] (PList []) "text/plain".

End Examples.

(** * Properties of the library model *)

Module EmailFacts.

Import Str Email.

Lemma find_app_last {A} (p : A -> bool) (l : list A) (x : A) :
  List.find p (l ++ [x]) =
    match List.find p l with
    | Some y => Some y
    | None => if p x then Some x else None
    end.
Proof.
  induction l as [|a l IH]; simpl.
  - reflexivity.
  - destruct (p a); [reflexivity | exact IH].
Qed.

Lemma find_filter_none {A} (p q : A -> bool) (l : list A) :
  (forall a, p a = true -> q a = false) ->
  List.find p (List.filter q l) = None.
Proof.
  intros Hpq. induction l as [|a l IH]; simpl; [reflexivity|].
  destruct (q a) eqn:Hq; simpl; [|exact IH].
  destruct (p a) eqn:Hp; [|exact IH].
  apply Hpq in Hp. congruence.
Qed.

Lemma find_filter_keep {A} (p q : A -> bool) (l : list A) :
  (forall a, p a = true -> q a = true) ->
  List.find p (List.filter q l) = List.find p l.
Proof.
  intros Hpq. induction l as [|a l IH]; simpl; [reflexivity|].
  destruct (p a) eqn:Hp.
  - rewrite (Hpq _ Hp). simpl. now rewrite Hp.
  - destruct (q a); simpl; [rewrite Hp|]; exact IH.
Qed.

Lemma filter_filter_none {A} (p q : A -> bool) (l : list A) :
  (forall a, p a = true -> q a = false) ->
  List.filter p (List.filter q l) = [].
Proof.
  intros Hpq. induction l as [|a l IH]; simpl; [reflexivity|].
  destruct (q a) eqn:Hq; simpl; [|exact IH].
  destruct (p a) eqn:Hp; [|exact IH].
  apply Hpq in Hp. congruence.
Qed.

Lemma filter_filter_keep {A} (p q : A -> bool) (l : list A) :
  (forall a, p a = true -> q a = true) ->
  List.filter p (List.filter q l) = List.filter p l.
Proof.
  intros Hpq. induction l as [|a l IH]; simpl; [reflexivity|].
  destruct (p a) eqn:Hp.
  - rewrite (Hpq _ Hp). simpl. rewrite Hp. now f_equal.
  - destruct (q a); simpl; [rewrite Hp|]; exact IH.
Qed.

Lemma filter_idem {A} (p : A -> bool) (l : list A) :
  List.filter p (List.filter p l) = List.filter p l.
Proof. apply filter_filter_keep. auto. Qed.

(** Two header names that differ when case is ignored. *)
Definition other_name (n n' : string) : Prop := lower n <> lower n'.

Lemma name_is_other n n' h :
  other_name n n' -> name_is n h = true -> name_is n' h = false.
Proof.
  unfold name_is, other_name. intros Hne Hn.
  apply String.eqb_eq in Hn. apply String.eqb_neq. congruence.
Qed.

Lemma name_is_same n n' h :
  lower n = lower n' -> name_is n h = name_is n' h.
Proof. unfold name_is. now intros ->. Qed.

(** [msg[name]] is the first of [msg.get_all(name)]. *)
Lemma get_head_get_all name m : get name m = List.head (get_all name m).
Proof.
  unfold get, get_all. induction (_headers m) as [|h hs IH]; simpl.
  - reflexivity.
  - destruct (name_is name h); [reflexivity | exact IH].
Qed.

Lemma contains_get name m : contains name m = true <-> get name m <> None.
Proof.
  unfold contains, get. induction (_headers m) as [|h hs IH]; simpl.
  - split; [discriminate | congruence].
  - destruct (name_is name h); simpl; [split; [discriminate | reflexivity] | exact IH].
Qed.

Lemma get_setitem_delitem n n' v m :
  lower n = lower n' -> get n (setitem n' v (delitem n' m)) = Some v.
Proof.
  intros Hn. unfold get, setitem, delitem, set_headers. simpl.
  rewrite find_app_last, find_filter_none.
  - unfold name_is at 1. simpl. rewrite Hn, String.eqb_refl. reflexivity.
  - intros a Ha. rewrite (name_is_same n n') in Ha by exact Hn. now rewrite Ha.
Qed.

Lemma get_setitem_other n n' v m :
  other_name n n' -> get n (setitem n' v m) = get n m.
Proof.
  intros Hne. unfold get, setitem, set_headers. simpl.
  rewrite find_app_last. destruct (List.find (name_is n) (_headers m)); [reflexivity|].
  unfold name_is. simpl. apply String.eqb_neq in Hne.
  rewrite String.eqb_sym, Hne. reflexivity.
Qed.

Lemma get_delitem_other n n' m :
  other_name n n' -> get n (delitem n' m) = get n m.
Proof.
  intros Hne. unfold get, delitem, set_headers. simpl.
  rewrite find_filter_keep; [reflexivity|].
  intros a Ha. now rewrite (name_is_other n n' a Hne Ha).
Qed.

End EmailFacts.

Module MimeFacts.

Import Str Email Mime EmailFacts.

(** A Content-Type value that reads text/html whatever follows. *)
Definition html_typed (v : string) : Prop :=
  v = "text/html" \/ exists r, v = "text/html;" +:+ r.

Lemma append_nil (t : string) : EmptyString +:+ t = t.
Proof. reflexivity. Qed.

Lemma append_cons (c : ascii) (s t : string) : String c s +:+ t = String c (s +:+ t).
Proof. reflexivity. Qed.

Lemma append_assoc (a b c : string) : (a +:+ b) +:+ c = a +:+ (b +:+ c).
Proof.
  induction a as [|x a IH]; [reflexivity|].
  rewrite !append_cons. f_equal. exact IH.
Qed.

Lemma get_content_type_html m v :
  get "content-type" m = Some v -> html_typed v -> get_content_type m = "text/html".
Proof.
  intros Hget Hv. unfold get_content_type. rewrite Hget.
  destruct Hv as [-> | [r ->]]; reflexivity.
Qed.

Lemma join_param_html ctype p :
  html_typed ctype -> html_typed (join_param ctype p).
Proof.
  intros [-> | [r ->]]; right.
  - exists (" " +:+ p). reflexivity.
  - exists (r +:+ "; " +:+ p).
    change (("text/html;" +:+ r) +:+ "; " +:+ p = "text/html;" +:+ r +:+ "; " +:+ p).
    apply append_assoc.
Qed.

Section WithCodecs.
Context `{Codecs}.

(** Rebuilding the header from its parameters keeps a text/html
    value text/html. *)
Lemma fold_set_html param value params ctype :
  html_typed ctype ->
  html_typed
    (List.fold_left
       (fun ctype '(old_param, old_value) =>
          join_param ctype
            (if String.eqb (lower old_param) (lower param)
             then _formatparam param value
             else _formatparam old_param old_value))
       params ctype).
Proof.
  revert ctype. induction params as [|[k v] ps IH]; intros ctype Hc; simpl.
  - exact Hc.
  - apply IH. now apply join_param_html.
Qed.

Lemma fold_del_html param params ctype :
  html_typed ctype ->
  html_typed
    (List.fold_left
       (fun ctype '(p, v) =>
          if String.eqb (lower p) (lower param) then ctype
          else join_param ctype (_formatparam p v))
       params ctype).
Proof.
  revert ctype. induction params as [|[k v] ps IH]; intros ctype Hc; simpl.
  - exact Hc.
  - apply IH. destruct (String.eqb (lower k) (lower param)); [exact Hc|].
    now apply join_param_html.
Qed.

(** The parameters of a value that starts with [text/html;]. *)
Lemma get_params_html m r :
  get "Content-Type" m = Some ("text/html;" +:+ r) ->
  exists ps, get_params "Content-Type" m = ("text/html", EmptyString) :: ps.
Proof.
  intros Hget. unfold get_params. rewrite Hget.
  unfold _get_params_preserve, _parseparam. simpl.
  destruct (segments true false false r); simpl; eexists; reflexivity.
Qed.

Lemma set_param_cases param value m :
  set_param param value m = m \/
  exists ctype, set_param param value m
                = setitem "Content-Type" ctype (delitem "Content-Type" m).
Proof.
  unfold set_param.
  match goal with |- context [bool_decide ?P] => destruct (bool_decide P) end;
    [left; reflexivity | right; eexists; reflexivity].
Qed.

Lemma del_param_cases param m :
  del_param param m = m \/
  exists ctype, del_param param m
                = setitem "content-type" ctype (delitem "content-type" m).
Proof.
  unfold del_param. destruct (negb (contains "content-type" m)); [now left|].
  match goal with |- context [bool_decide ?P] => destruct (bool_decide P) end;
    [left; reflexivity | right; eexists; reflexivity].
Qed.

Lemma set_param_html value m r :
  get "Content-Type" m = Some ("text/html;" +:+ r) ->
  exists v, get "Content-Type" (set_param "charset" value m) = Some v /\ html_typed v.
Proof.
  intros Hget.
  assert (Hin : contains "Content-Type" m = true)
    by (apply contains_get; rewrite Hget; discriminate).
  destruct (get_params_html m r Hget) as [ps Hps].
  unfold set_param. rewrite Hin, Hget, Hps.
  match goal with |- context [bool_decide (Some ?c = _)] => set (ctype := c) end.
  assert (Hc : html_typed ctype).
  { subst ctype. destruct (negb (truthy _)).
    - right. exists (r +:+ SEMISPACE +:+ _formatparam "charset" value).
      change (("text/html;" +:+ r) +:+ SEMISPACE +:+ _formatparam "charset" value
              = "text/html;" +:+ r +:+ SEMISPACE +:+ _formatparam "charset" value).
      apply append_assoc.
    - cbn [List.fold_left]. apply fold_set_html. left. reflexivity. }
  destruct (bool_decide (Some ctype = Some ("text/html;" +:+ r))).
  - exists ("text/html;" +:+ r). split; [exact Hget | right; now exists r].
  - exists ctype. split; [now apply get_setitem_delitem | exact Hc].
Qed.

Lemma del_param_html m r :
  get "Content-Type" m = Some ("text/html;" +:+ r) ->
  exists v, get "Content-Type" (del_param "charset" m) = Some v /\ html_typed v.
Proof.
  intros Hget.
  assert (Hin : contains "content-type" m = true)
    by (apply contains_get; change (get "Content-Type" m <> None);
        rewrite Hget; discriminate).
  destruct (get_params_html m r Hget) as [ps Hps].
  unfold del_param. rewrite Hin.
  change (get_params "content-type" m) with (get_params "Content-Type" m).
  change (get "content-type" m) with (get "Content-Type" m).
  rewrite Hget, Hps. simpl negb. cbv iota.
  match goal with |- context [bool_decide (Some ?c = _)] => set (ctype := c) end.
  assert (Hc : html_typed ctype)
    by (subst ctype; cbn [List.fold_left]; apply fold_del_html; left; reflexivity).
  destruct (bool_decide (Some ctype = Some ("text/html;" +:+ r))).
  - exists ("text/html;" +:+ r). split; [exact Hget | right; now exists r].
  - exists ctype. split; [now apply get_setitem_delitem | exact Hc].
Qed.

Lemma get_map_text name f m : get name (map_text f m) = get name m.
Proof. unfold map_text. now destruct (_payload m). Qed.

Lemma get_encode_7or8bit name m :
  other_name name "Content-Transfer-Encoding" ->
  get name (encode_7or8bit m) = get name m.
Proof.
  intros Hne. unfold encode_7or8bit.
  destruct (_payload m); now apply get_setitem_other.
Qed.

Lemma content_type_other_cte : other_name "Content-Type" "Content-Transfer-Encoding".
Proof. discriminate. Qed.

Lemma content_type_other_mime : other_name "Content-Type" "MIME-Version".
Proof. discriminate. Qed.

Lemma cte_other_content_type : other_name "Content-Transfer-Encoding" "Content-Type".
Proof. discriminate. Qed.

(** A text/html message stays text/html under [set_charset]. *)
Lemma set_charset_html charset m r :
  get "Content-Type" m = Some ("text/html;" +:+ r) ->
  get_content_type (set_charset charset m) = "text/html".
Proof.
  intros Hget. destruct charset as [name|]; simpl.
  - set (cs := Charset.Charset name).
    set (m1 := if contains "MIME-Version" m then m else setitem "MIME-Version" "1.0" m).
    assert (H1 : get "Content-Type" m1 = Some ("text/html;" +:+ r)).
    { subst m1. destruct (contains "MIME-Version" m); [exact Hget|].
      rewrite get_setitem_other; [exact Hget | exact content_type_other_mime]. }
    assert (Hin : contains "Content-Type" m1 = true)
      by (apply contains_get; rewrite H1; discriminate).
    rewrite Hin.
    destruct (set_param_html (Charset.get_output_charset cs) m1 r H1) as (v & Hv & Htyped).
    set (m2 := set_param "charset" (Charset.get_output_charset cs) m1) in *.
    set (m3 := if Charset.converts cs then map_text (Charset.body_encode cs true) m2 else m2).
    assert (H3 : get "Content-Type" m3 = Some v).
    { subst m3. destruct (Charset.converts cs); [rewrite get_map_text|]; exact Hv. }
    apply get_content_type_html with v; [|exact Htyped].
    change (get "content-type") with (get "Content-Type").
    destruct (contains "Content-Transfer-Encoding" m3); [exact H3|].
    destruct (Charset.body_encoding cs) as [[]|];
      rewrite ?get_encode_7or8bit, ?get_setitem_other, ?get_map_text
        by exact content_type_other_cte;
      exact H3.
  - destruct (del_param_html m r Hget) as (v & Hv & Htyped).
    now apply get_content_type_html with v.
Qed.

(** [set_charset] leaves the transfer encoding of a message that
    declares one. *)
Lemma set_charset_cte charset m v :
  get "Content-Transfer-Encoding" m = Some v ->
  get "Content-Transfer-Encoding" (set_charset charset m) = Some v.
Proof.
  intros Hget. destruct charset as [name|]; simpl.
  - set (cs := Charset.Charset name).
    set (m1 := if contains "MIME-Version" m then m else setitem "MIME-Version" "1.0" m).
    assert (H1 : get "Content-Transfer-Encoding" m1 = Some v).
    { subst m1. destruct (contains "MIME-Version" m); [exact Hget|].
      rewrite get_setitem_other; [exact Hget | discriminate]. }
    set (m2 := if contains "Content-Type" m1
               then set_param "charset" (Charset.get_output_charset cs) m1
               else add_header_charset "Content-Type" "text/plain"
                      (Charset.get_output_charset cs) m1).
    assert (H2 : get "Content-Transfer-Encoding" m2 = Some v).
    { subst m2. destruct (contains "Content-Type" m1).
      - destruct (set_param_cases "charset" (Charset.get_output_charset cs) m1)
          as [-> | [c ->]]; [exact H1|].
        rewrite get_setitem_other, get_delitem_other
          by exact cte_other_content_type.
        exact H1.
      - unfold add_header_charset.
        rewrite get_setitem_other by exact cte_other_content_type. exact H1. }
    set (m3 := if Charset.converts cs then map_text (Charset.body_encode cs true) m2 else m2).
    assert (H3 : get "Content-Transfer-Encoding" m3 = Some v).
    { subst m3. destruct (Charset.converts cs); [rewrite get_map_text|]; exact H2. }
    assert (Hin : contains "Content-Transfer-Encoding" m3 = true)
      by (apply contains_get; rewrite H3; discriminate).
    rewrite Hin. exact H3.
  - destruct (del_param_cases "charset" m) as [-> | [c ->]]; [exact Hget|].
    rewrite get_setitem_other, get_delitem_other by discriminate.
    exact Hget.
Qed.

Lemma replace_first_some name val hs :
  List.find (name_is name) hs <> None ->
  exists hs', replace_first name val hs = Some hs' /\
              (forall n, lower n = lower name ->
                         option_map snd (List.find (name_is n) hs') = Some val) /\
              (forall n, other_name n name ->
                         List.find (name_is n) hs' = List.find (name_is n) hs).
Proof.
  induction hs as [|[k v] hs IH]; simpl; [congruence|].
  destruct (name_is name (k, v)) eqn:Hk.
  - intros _. eexists. split; [reflexivity|]. split.
    + intros n Hn. simpl.
      assert (Hkn : name_is n (k, val) = true).
      { rewrite (name_is_same n name) by exact Hn. exact Hk. }
      now rewrite Hkn.
    + intros n Hn. simpl.
      assert (Hkn : forall x, name_is n (k, x) = false).
      { intros x. apply String.eqb_neq. unfold name_is in Hk.
        apply String.eqb_eq in Hk. simpl in *. unfold other_name in Hn. congruence. }
      now rewrite !Hkn.
  - intros Hfind. destruct (IH Hfind) as (hs' & -> & Hsame & Hother).
    eexists. split; [reflexivity|]. split.
    + intros n Hn. simpl.
      assert (Hkn : name_is n (k, v) = false)
        by (rewrite (name_is_same n name) by exact Hn; exact Hk).
      rewrite Hkn. now apply Hsame.
    + intros n Hn. simpl. destruct (name_is n (k, v)); [reflexivity|].
      now apply Hother.
Qed.

(** [replace_header] on a message that has the header. *)
Lemma replace_header_some name val m v :
  get name m = Some v ->
  exists m', replace_header name val m = Some m' /\
             get name m' = Some val /\
             (forall n, other_name n name -> get n m' = get n m) /\
             _payload m' = _payload m /\ _default_type m' = _default_type m.
Proof.
  intros Hget.
  assert (Hfind : List.find (name_is name) (_headers m) <> None).
  { unfold get in Hget. destruct (List.find _ _); [discriminate|discriminate]. }
  destruct (replace_first_some name val _ Hfind) as (hs' & Hrep & Hsame & Hother).
  exists (set_headers hs' m). unfold replace_header. rewrite Hrep. simpl.
  repeat split.
  - now apply Hsame.
  - intros n Hn. unfold get. simpl. now rewrite Hother.
Qed.

Lemma get_content_type_ext m m' :
  get "Content-Type" m' = get "Content-Type" m ->
  _default_type m' = _default_type m ->
  get_content_type m' = get_content_type m.
Proof.
  intros Hget Hdef. unfold get_content_type.
  change (get "content-type") with (get "Content-Type").
  now rewrite Hget, Hdef.
Qed.

End WithCodecs.

End MimeFacts.

Module BuiltFacts.

Import Str Email EmailFacts MimeFacts.

Section WithCodecs.
Context `{Codecs}.

(** The [MIMEText] of an empty text, plain or html: an empty us-ascii
    leaf, declared 7bit. *)
Lemma MIMEText_empty_plain :
  Mime.MIMEText EmptyString "plain" None =
    mkMessage [("Content-Type", "text/plain; charset=" +:+ quoted "us-ascii");
               ("MIME-Version", "1.0");
               ("Content-Transfer-Encoding", "7bit")]
              (PStr EmptyString) "text/plain".
Proof. reflexivity. Qed.

Lemma MIMEText_empty_html :
  Mime.MIMEText EmptyString "html" None =
    mkMessage [("Content-Type", "text/html; charset=" +:+ quoted "us-ascii");
               ("MIME-Version", "1.0");
               ("Content-Transfer-Encoding", "7bit")]
              (PStr EmptyString) "text/plain".
Proof. reflexivity. Qed.

Lemma MIMEText_html_type html_str charset :
  get_content_type (Mime.MIMEText html_str "html" charset) = "text/html".
Proof.
  unfold Mime.MIMEText, Mime.set_payload_charset.
  match goal with
  | |- context [Mime.add_header_charset _ _ ?c _] =>
      apply set_charset_html with (r := " " +:+ Mime._formatparam "charset" c)
  end.
  reflexivity.
Qed.

Lemma html_leaf_charset_type charset html_str :
  get_content_type (html_leaf_charset charset html_str) = "text/html".
Proof.
  unfold html_leaf_charset. rewrite MIMEText_empty_html.
  apply set_charset_html with (r := " charset=" +:+ quoted "us-ascii"). reflexivity.
Qed.

Lemma html_leaf_charset_cte charset html_str :
  get "Content-Transfer-Encoding" (html_leaf_charset charset html_str) = Some "7bit".
Proof.
  unfold html_leaf_charset. rewrite MIMEText_empty_html.
  apply set_charset_cte. reflexivity.
Qed.

(** The override of the transfer encoding finds its header. *)
Lemma html_leaf_replace charset html_str :
  exists m', replace_header "Content-Transfer-Encoding" "8bit"
               (html_leaf_charset charset html_str) = Some m' /\
             get "Content-Transfer-Encoding" m' = Some "8bit" /\
             get_content_type m' = "text/html".
Proof.
  destruct (replace_header_some "Content-Transfer-Encoding" "8bit" _ _
              (html_leaf_charset_cte charset html_str))
    as (m' & Hrep & Hcte & Hother & _ & Hdef).
  exists m'. split; [exact Hrep|]. split; [exact Hcte|].
  rewrite <- (html_leaf_charset_type charset html_str).
  apply get_content_type_ext; [|exact Hdef].
  apply Hother. exact content_type_other_cte.
Qed.

Lemma html_leaf_type allow_8bit charset html_str :
  get_content_type (html_leaf allow_8bit charset html_str) = "text/html".
Proof.
  unfold html_leaf. destruct allow_8bit; [|apply MIMEText_html_type].
  cbv zeta. destruct (negb _); [|apply html_leaf_charset_type].
  destruct (html_leaf_replace charset html_str) as (m' & -> & _ & Htype).
  exact Htype.
Qed.

Lemma html_leaf_8bit charset html_str :
  charset <> Some "us-ascii" ->
  get "Content-Transfer-Encoding" (html_leaf true charset html_str) = Some "8bit".
Proof.
  intros Hne. unfold html_leaf. cbv zeta.
  rewrite bool_decide_eq_false_2 by exact Hne. simpl negb. cbv iota.
  destruct (html_leaf_replace charset html_str) as (m' & -> & Hcte & _).
  exact Hcte.
Qed.

Lemma html_leaf_us_ascii html_str :
  html_leaf true (Some "us-ascii") html_str
  = html_leaf_charset (Some "us-ascii") html_str.
Proof. reflexivity. Qed.

(** *** The cloned text leaf *)

Lemma get_all_clone_same name src dst :
  contains name src = true ->
  get_all name (MessageUtils.clone_header name src dst) = get_all name src.
Proof.
  intros Hin. unfold get_all, MessageUtils.clone_header. rewrite Hin.
  unfold set_headers. simpl.
  rewrite List.filter_app, filter_filter_none, filter_idem; [reflexivity|].
  intros a ->. reflexivity.
Qed.

Lemma clone_header_absent name src dst :
  contains name src = false -> MessageUtils.clone_header name src dst = dst.
Proof. intros Hin. unfold MessageUtils.clone_header. now rewrite Hin. Qed.

Lemma get_all_clone_other name name' src dst :
  other_name name name' ->
  get_all name (MessageUtils.clone_header name' src dst) = get_all name dst.
Proof.
  intros Hne. unfold get_all, MessageUtils.clone_header.
  destruct (contains name' src); [|reflexivity].
  unfold set_headers. simpl.
  rewrite List.filter_app, filter_filter_keep, filter_filter_none.
  - now rewrite List.app_nil_r.
  - intros a Ha. exact (name_is_other _ _ a Hne Ha).
  - intros a Ha. now rewrite (name_is_other _ _ a Hne Ha).
Qed.


Lemma default_type_clone name src dst :
  _default_type (MessageUtils.clone_header name src dst) = _default_type dst.
Proof. unfold MessageUtils.clone_header. now destruct (contains name src). Qed.

Lemma text_leaf_content_type m :
  contains "Content-Type" m = true ->
  get_all "Content-Type" (text_leaf m) = get_all "Content-Type" m.
Proof.
  intros Hin. unfold text_leaf.
  rewrite get_all_clone_other by exact content_type_other_cte.
  now apply get_all_clone_same.
Qed.



(** Without a Content-Type field to copy, the text leaf keeps the one
    that [MIMEText] gave it. *)
Lemma text_leaf_type m :
  get_content_type m = "text/plain" -> get_content_type (text_leaf m) = "text/plain".
Proof.
  intros Hm. destruct (contains "Content-Type" m) eqn:Hin.
  - unfold get_content_type in *.
    change (get "content-type") with (get "Content-Type") in *.
    rewrite get_head_get_all, text_leaf_content_type, <- get_head_get_all by exact Hin.
    destruct (get "Content-Type" m); [exact Hm|].
    unfold text_leaf. now rewrite !default_type_clone.
  - unfold get_content_type.
    change (get "content-type") with (get "Content-Type").
    rewrite get_head_get_all. unfold text_leaf.
    rewrite get_all_clone_other by exact content_type_other_cte.
    rewrite clone_header_absent by exact Hin.
    rewrite MIMEText_empty_plain. reflexivity.
Qed.

(** *** The alternative containers *)

Lemma alternative_type t p :
  get_content_type (alternative t p) = "multipart/alternative".
Proof. reflexivity. Qed.

Lemma alternative_of_type m t p :
  get_content_type (alternative_of m t p) = "multipart/alternative".
Proof.
  unfold get_content_type, get, alternative_of, MessageUtils.convert_text_to_alternative.
  simpl. rewrite find_app_last, find_filter_none; [reflexivity|].
  intros a Ha. unfold MessageUtils.content_structural.
  change (name_is "Content-Type" a) with (name_is "content-type" a).
  now rewrite Ha.
Qed.

End WithCodecs.

End BuiltFacts.

(** * Running the processor *)

Section Runs.

Variable E : Type.
Context `{Codecs}.

Local Abbreviation M := (M E).

Import EmailFacts MimeFacts.

Lemma bind_inr {A B} (c : M A) (k : A -> M B) st a st' :
  c st = (inr a, st') -> bind c k st = k a st'.
Proof. unfold bind. now intros ->. Qed.

Lemma bind_inl {A B} (c : M A) (k : A -> M B) st e st' :
  c st = (inl e, st') -> bind c k st = (inl e, st').
Proof. unfold bind. now intros ->. Qed.

Lemma deref_run a h r m :
  h !! a = Some m -> deref (E:=E) a (mkState h r) = (inr m, mkState h r).
Proof. unfold deref. simpl. now intros ->. Qed.

Lemma store_run a h r m0 m :
  h !! a = Some m0 -> store (E:=E) a m (mkState h r) = (inr tt, mkState (<[a := m]> h) r).
Proof. unfold store. simpl. now intros ->. Qed.

Lemma modify_run a f h r m :
  h !! a = Some m ->
  modify (E:=E) a f (mkState h r) = (inr tt, mkState (<[a := f m]> h) r).
Proof.
  intros Ha. unfold modify.
  rewrite (bind_inr _ _ _ _ _ (deref_run a h r m Ha)).
  now apply store_run with m.
Qed.

Lemma modify_or_run e a f h r m m' :
  h !! a = Some m -> f m = Some m' ->
  modify_or (E:=E) e a f (mkState h r) = (inr tt, mkState (<[a := m']> h) r).
Proof.
  intros Ha Hf. unfold modify_or.
  rewrite (bind_inr _ _ _ _ _ (deref_run a h r m Ha)), Hf.
  now apply store_run with m.
Qed.

Lemma alloc_run m h r :
  alloc (E:=E) m (mkState h r) = (inr (length h), mkState (h ++ [m]) r).
Proof. reflexivity. Qed.

(** Lookup and update at the end of a store that has grown. *)
Lemma lookup_old (h l : list Message) a m :
  h !! a = Some m -> (h ++ l) !! a = Some m.
Proof. intros Ha. now apply lookup_app_l_Some. Qed.

Lemma lookup_new (h l : list Message) i :
  (h ++ l) !! (length h + i) = l !! i.
Proof. rewrite lookup_app_r by lia. f_equal. lia. Qed.

Lemma insert_new (h l : list Message) i m :
  <[length h + i := m]> (h ++ l) = h ++ <[i := m]> l.
Proof. rewrite insert_app_r_alt by lia. do 2 f_equal. lia. Qed.

Lemma lookup_last (h : list Message) x : (h ++ [x]) !! length h = Some x.
Proof. now apply list_lookup_middle. Qed.

Lemma insert_last (h : list Message) x y : <[length h := y]> (h ++ [x]) = h ++ [y].
Proof. rewrite insert_app_r_alt by lia. now rewrite Nat.sub_diag. Qed.

(** The method wrappers on an object of the store. *)
Lemma is_multipart_run a h r m :
  h !! a = Some m ->
  is_multipart E a (mkState h r) = (inr (Email.is_multipart m), mkState h r).
Proof. intros Ha. unfold is_multipart. now rewrite (bind_inr _ _ _ _ _ (deref_run a h r m Ha)). Qed.

Lemma get_content_type_run a h r m :
  h !! a = Some m ->
  get_content_type E a (mkState h r) = (inr (Email.get_content_type m), mkState h r).
Proof. intros Ha. unfold get_content_type. now rewrite (bind_inr _ _ _ _ _ (deref_run a h r m Ha)). Qed.

Lemma get_content_charset_run a h r m :
  h !! a = Some m ->
  get_content_charset E a (mkState h r)
  = (inr (Email.get_content_charset m), mkState h r).
Proof. intros Ha. unfold get_content_charset. now rewrite (bind_inr _ _ _ _ _ (deref_run a h r m Ha)). Qed.

Lemma get_payload_run a h r m :
  h !! a = Some m ->
  get_payload E a (mkState h r) = (inr (_payload m), mkState h r).
Proof. intros Ha. unfold get_payload. now rewrite (bind_inr _ _ _ _ _ (deref_run a h r m Ha)). Qed.

Lemma call_html_parser_run (self : MessageProcessor E) f text html_str h r :
  html_parser self = Some f -> f text = inr html_str ->
  call_html_parser self text (mkState h r) = (inr html_str, mkState h (r ++ [text])).
Proof. intros Hf Hr. unfold call_html_parser. rewrite Hf. simpl. now rewrite Hr. Qed.

Lemma call_html_parser_raise (self : MessageProcessor E) f text e h r :
  html_parser self = Some f -> f text = inl e ->
  call_html_parser self text (mkState h r)
  = (inl (RendererError e), mkState h (r ++ [text])).
Proof. intros Hf Hr. unfold call_html_parser. rewrite Hf. simpl. now rewrite Hr. Qed.

Lemma MIMEText_run _text _subtype _charset h r :
  Mime.MIMEText_error _text _charset = None ->
  MIMEText E _text _subtype _charset (mkState h r)
  = (inr (length h), mkState (h ++ [Mime.MIMEText _text _subtype _charset]) r).
Proof. intros He. unfold MIMEText. now rewrite He. Qed.

Lemma MIMEText_raise _text _subtype _charset e h r :
  Mime.MIMEText_error _text _charset = Some e ->
  MIMEText E _text _subtype _charset (mkState h r) = (inl (codec_exn e), mkState h r).
Proof. intros He. unfold MIMEText. now rewrite He. Qed.

Lemma MIMEText_error_empty : Mime.MIMEText_error EmptyString None = None.
Proof. reflexivity. Qed.

(** [_create_html_message] on a part whose text the renderer accepts,
    when the library builds the leaf: one call of the renderer and one
    new object. *)
Lemma _create_html_message_run (self : MessageProcessor E) f msg m html_str h r :
  h !! msg = Some m ->
  html_parser self = Some f -> f (_payload m) = inr html_str ->
  html_leaf_error (allow_8bit self) (Email.get_content_charset m) html_str = None ->
  _create_html_message self msg (mkState h r)
  = (inr (length h),
     mkState (h ++ [html_leaf (allow_8bit self) (Email.get_content_charset m) html_str])
             (r ++ [_payload m])).
Proof.
  intros Hm Hf Hr He. unfold _create_html_message.
  rewrite (bind_inr _ _ _ _ _ (get_content_charset_run _ _ _ _ Hm)).
  rewrite (bind_inr _ _ _ _ _ (get_payload_run _ _ _ _ Hm)).
  rewrite (bind_inr _ _ _ _ _ (call_html_parser_run _ _ _ _ _ _ Hf Hr)).
  unfold html_leaf, html_leaf_error in *.
  destruct (allow_8bit self); [|now apply MIMEText_run].
  rewrite (bind_inr _ _ _ _ _ (MIMEText_run _ _ _ _ _ MIMEText_error_empty)).
  pose proof (lookup_last h) as Hnew. pose proof (insert_last h) as Hins.
  unfold set_payload. rewrite (bind_inr _ _ _ _ _ (modify_run _ _ _ _ _ (Hnew _))), Hins.
  unfold set_charset. rewrite (bind_inr _ _ _ _ _ (modify_run _ _ _ _ _ (Hnew _))), Hins.
  fold (html_leaf_charset (Email.get_content_charset m) html_str).
  cbv zeta. destruct (negb _).
  - destruct (BuiltFacts.html_leaf_replace (Email.get_content_charset m) html_str)
      as (m' & Hrep & _).
    unfold replace_header.
    rewrite (bind_inr _ _ _ _ _ (modify_or_run _ _ _ _ _ _ _ (Hnew _) Hrep)), Hins, Hrep.
    reflexivity.
  - reflexivity.
Qed.

Lemma lookup_mid (h l : list Message) x : (h ++ x :: l) !! length h = Some x.
Proof. now apply list_lookup_middle. Qed.

Lemma insert_mid (h l : list Message) x y :
  <[length h := y]> (h ++ x :: l) = h ++ y :: l.
Proof. rewrite insert_app_r_alt by lia. now rewrite Nat.sub_diag. Qed.

Lemma _create_html_message_raise (self : MessageProcessor E) f msg m e h r :
  h !! msg = Some m ->
  html_parser self = Some f -> f (_payload m) = inl e ->
  _create_html_message self msg (mkState h r)
  = (inl (RendererError e), mkState h (r ++ [_payload m])).
Proof.
  intros Hm Hf Hr. unfold _create_html_message.
  rewrite (bind_inr _ _ _ _ _ (get_content_charset_run _ _ _ _ Hm)).
  rewrite (bind_inr _ _ _ _ _ (get_payload_run _ _ _ _ Hm)).
  now rewrite (bind_inl _ _ _ _ _ (call_html_parser_raise _ _ _ _ _ _ Hf Hr)).
Qed.

(** ... and when a codec of the library refuses the rendered text: the
    renderer has been called, no object has been made. *)
Lemma _create_html_message_codec (self : MessageProcessor E) f msg m html_str e h r :
  h !! msg = Some m ->
  html_parser self = Some f -> f (_payload m) = inr html_str ->
  html_leaf_error (allow_8bit self) (Email.get_content_charset m) html_str = Some e ->
  _create_html_message self msg (mkState h r)
  = (inl (codec_exn e), mkState h (r ++ [_payload m])).
Proof.
  intros Hm Hf Hr He. unfold _create_html_message.
  rewrite (bind_inr _ _ _ _ _ (get_content_charset_run _ _ _ _ Hm)).
  rewrite (bind_inr _ _ _ _ _ (get_payload_run _ _ _ _ Hm)).
  rewrite (bind_inr _ _ _ _ _ (call_html_parser_run _ _ _ _ _ _ Hf Hr)).
  unfold html_leaf_error in He.
  destruct (allow_8bit self); [discriminate|].
  now apply MIMEText_raise.
Qed.

Lemma _create_html_message_no_parser (self : MessageProcessor E) msg m h r :
  h !! msg = Some m ->
  html_parser self = None ->
  _create_html_message self msg (mkState h r) = (inl TypeError, mkState h r).
Proof.
  intros Hm Hf. unfold _create_html_message.
  rewrite (bind_inr _ _ _ _ _ (get_content_charset_run _ _ _ _ Hm)).
  rewrite (bind_inr _ _ _ _ _ (get_payload_run _ _ _ _ Hm)).
  unfold call_html_parser. now rewrite Hf.
Qed.

Lemma clone_header_run name src dst s d h r :
  h !! src = Some s -> h !! dst = Some d ->
  clone_header E name src dst (mkState h r)
  = (inr tt, mkState (<[dst := MessageUtils.clone_header name s d]> h) r).
Proof.
  intros Hs Hd. unfold clone_header.
  rewrite (bind_inr _ _ _ _ _ (deref_run _ _ _ _ Hs)).
  now apply modify_run.
Qed.

Lemma convert_text_to_alternative_run msg m h r :
  h !! msg = Some m ->
  convert_text_to_alternative E msg (mkState h r)
  = (inr (length h), mkState (h ++ [MessageUtils.convert_text_to_alternative m]) r).
Proof.
  intros Hm. unfold convert_text_to_alternative.
  now rewrite (bind_inr _ _ _ _ _ (deref_run _ _ _ _ Hm)).
Qed.

Lemma attach_run a part m parts h r :
  h !! a = Some m -> _payload m = PList parts ->
  attach E a part (mkState h r)
  = (inr tt, mkState (<[a := Mime.set_payload (PList (parts ++ [part])) m]> h) r).
Proof.
  intros Ha Hp. unfold attach.
  apply modify_or_run with m; [exact Ha|].
  unfold Mime.attach. now rewrite Hp.
Qed.

(** [_create_plain_message]: one new object, the clone of the text. *)
Lemma _create_plain_message_run self msg m h r :
  h !! msg = Some m ->
  _create_plain_message (E:=E) self msg (mkState h r)
  = (inr (length h), mkState (h ++ [text_leaf m]) r).
Proof.
  intros Hm. unfold _create_plain_message.
  rewrite (bind_inr _ _ _ _ _ (MIMEText_run _ _ _ _ _ MIMEText_error_empty)).
  rewrite (bind_inr _ _ _ _ _ (get_payload_run _ _ _ _ (lookup_old _ _ _ _ Hm))).
  unfold set_payload.
  rewrite (bind_inr _ _ _ _ _ (modify_run _ _ _ _ _ (lookup_last _ _))), insert_last.
  rewrite (bind_inr _ _ _ _ _
             (clone_header_run _ _ _ _ _ _ _ (lookup_old _ _ _ _ Hm) (lookup_last _ _))),
    insert_last.
  rewrite (bind_inr _ _ _ _ _
             (clone_header_run _ _ _ _ _ _ _ (lookup_old _ _ _ _ Hm) (lookup_last _ _))),
    insert_last.
  reflexivity.
Qed.

(** Every run of the plain path. *)
Lemma _add_html_to_plain_cases (self : MessageProcessor E) msg h r :
  _add_html_to_plain self msg (mkState h r) =
    match h !! msg with
    | None => (inl NoSuchObject, mkState h r)
    | Some m =>
        if plain_mismatch m then
          (inl (MessageTypeError
                  ("Expected text/plain, but got " +:+ Email.get_content_type m +:+ ".")),
           mkState h r)
        else
          match html_parser self with
          | None =>
              (inl TypeError,
               mkState (h ++ [MessageUtils.convert_text_to_alternative m; text_leaf m]) r)
          | Some f =>
              match f (_payload m) with
              | inl e =>
                  (inl (RendererError e),
                   mkState (h ++ [MessageUtils.convert_text_to_alternative m; text_leaf m])
                           (r ++ [_payload m]))
              | inr html_str =>
                  match html_leaf_error (allow_8bit self)
                          (Email.get_content_charset m) html_str with
                  | Some e =>
                      (inl (codec_exn e),
                       mkState (h ++ [MessageUtils.convert_text_to_alternative m;
                                      text_leaf m])
                               (r ++ [_payload m]))
                  | None =>
                      (inr (length h),
                       mkState (plain_heap self h m html_str) (r ++ [_payload m]))
                  end
              end
          end
    end.
Proof.
  unfold _add_html_to_plain.
  destruct (h !! msg) as [m|] eqn:Hm.
  2:{ unfold is_multipart, deref, bind. simpl. now rewrite Hm. }
  rewrite (bind_inr _ _ _ _ _ (is_multipart_run _ _ _ _ Hm)).
  unfold plain_mismatch.
  destruct (Email.is_multipart m) eqn:Hmulti; simpl orb.
  - rewrite (bind_inr _ _ _ _ _ (eq_refl : ret true (mkState h r) = (inr true, mkState h r))).
    now rewrite (bind_inr _ _ _ _ _ (get_content_type_run _ _ _ _ Hm)).
  - rewrite (bind_inr _ _ _ _ _
               (bind_inr _ _ _ _ _ (get_content_type_run _ _ _ _ Hm))).
    unfold ret at 1.
    destruct (negb (String.eqb (Email.get_content_type m) "text/plain")).
    + now rewrite (bind_inr _ _ _ _ _ (get_content_type_run _ _ _ _ Hm)).
    + rewrite (bind_inr _ _ _ _ _ (convert_text_to_alternative_run _ _ _ _ Hm)).
      rewrite (bind_inr _ _ _ _ _
                 (_create_plain_message_run self _ _ _ _ (lookup_old _ _ _ _ Hm))).
      rewrite <- app_assoc. cbn [app]. rewrite length_app. cbn [length].
      assert (Hm' : (h ++ [MessageUtils.convert_text_to_alternative m; text_leaf m])
                      !! msg = Some m) by now apply lookup_old.
      destruct (html_parser self) as [f|] eqn:Hf.
      2:{ now rewrite (bind_inl _ _ _ _ _ (_create_html_message_no_parser _ _ _ _ _ Hm' Hf)). }
      destruct (f (_payload m)) as [e|html_str] eqn:Hr.
      { now rewrite (bind_inl _ _ _ _ _ (_create_html_message_raise _ _ _ _ _ _ _ Hm' Hf Hr)). }
      destruct (html_leaf_error _ _ _) as [e|] eqn:He.
      { now rewrite (bind_inl _ _ _ _ _
                       (_create_html_message_codec _ _ _ _ _ _ _ _ Hm' Hf Hr He)). }
      rewrite (bind_inr _ _ _ _ _ (_create_html_message_run _ _ _ _ _ _ _ Hm' Hf Hr He)).
      rewrite <- app_assoc. cbn [app]. rewrite length_app. cbn [length].
      erewrite bind_inr; [|eapply attach_run; [apply lookup_mid | reflexivity]].
      rewrite insert_mid.
      erewrite bind_inr; [|eapply attach_run; [apply lookup_mid | reflexivity]].
      rewrite insert_mid.
      reflexivity.
Qed.

Lemma set_first_part_run msg part m t rest h r :
  h !! msg = Some m -> _payload m = PList (t :: rest) ->
  set_first_part E msg part (mkState h r)
  = (inr tt, mkState (<[msg := Mime.set_payload (PList (part :: rest)) m]> h) r).
Proof.
  intros Hm Hp. unfold set_first_part.
  apply modify_or_run with m; [exact Hm|]. now rewrite Hp.
Qed.

(** Every run of the multipart path. *)
Lemma _add_html_to_multipart_cases (self : MessageProcessor E) msg h r :
  _add_html_to_multipart self msg (mkState h r) =
    match h !! msg with
    | None => (inl NoSuchObject, mkState h r)
    | Some m =>
        match _payload m with
        | PStr _ =>
            (inl (MessageTypeError
                    ("Expected multipart/alternative, but got "
                       +:+ Email.get_content_type m +:+ ".")),
             mkState h r)
        | PList [] => (inl IndexError, mkState h r)
        | PList (t :: rest) =>
            match h !! t with
            | None => (inl NoSuchObject, mkState h r)
            | Some tm =>
                if negb (String.eqb (Email.get_content_type tm) "text/plain") then
                  (inl (MessageTypeError
                          ("Expected component 1 to be text/plain, but got "
                             +:+ Email.get_content_type m +:+ ".")),
                   mkState h r)
                else
                  match html_parser self with
                  | None => (inl TypeError, mkState h r)
                  | Some f =>
                      match f (_payload tm) with
                      | inl e => (inl (RendererError e), mkState h (r ++ [_payload tm]))
                      | inr html_str =>
                          match html_leaf_error (allow_8bit self)
                                  (Email.get_content_charset tm) html_str with
                          | Some e => (inl (codec_exn e), mkState h (r ++ [_payload tm]))
                          | None =>
                              (inr msg,
                               mkState (multipart_heap self h msg m t rest tm html_str)
                                       (r ++ [_payload tm]))
                          end
                      end
                  end
            end
        end
    end.
Proof.
  unfold _add_html_to_multipart.
  destruct (h !! msg) as [m|] eqn:Hm.
  2:{ unfold is_multipart, deref, bind. simpl. now rewrite Hm. }
  rewrite (bind_inr _ _ _ _ _ (is_multipart_run _ _ _ _ Hm)).
  unfold Email.is_multipart.
  destruct (_payload m) as [s|parts] eqn:Hp; cbn [negb].
  { now rewrite (bind_inr _ _ _ _ _ (get_content_type_run _ _ _ _ Hm)). }
  rewrite (bind_inr _ _ _ _ _ (get_payload_run _ _ _ _ Hm)), Hp.
  destruct parts as [|t rest]; [reflexivity|].
  unfold first_part at 1.
  rewrite (bind_inr _ _ _ _ _ (eq_refl : ret t (mkState h r) = (inr t, mkState h r))).
  destruct (h !! t) as [tm|] eqn:Ht.
  2:{ unfold get_content_type at 1, deref, bind. simpl. now rewrite Ht. }
  rewrite (bind_inr _ _ _ _ _ (get_content_type_run _ _ _ _ Ht)).
  destruct (negb (String.eqb (Email.get_content_type tm) "text/plain")).
  { now rewrite (bind_inr _ _ _ _ _ (get_content_type_run _ _ _ _ Hm)). }
  destruct (html_parser self) as [f|] eqn:Hf.
  2:{ now rewrite (bind_inl _ _ _ _ _ (_create_html_message_no_parser _ _ _ _ _ Ht Hf)). }
  destruct (f (_payload tm)) as [e|html_str] eqn:Hr.
  { now rewrite (bind_inl _ _ _ _ _ (_create_html_message_raise _ _ _ _ _ _ _ Ht Hf Hr)). }
  destruct (html_leaf_error _ _ _) as [e|] eqn:He.
  { now rewrite (bind_inl _ _ _ _ _
                   (_create_html_message_codec _ _ _ _ _ _ _ _ Ht Hf Hr He)). }
  rewrite (bind_inr _ _ _ _ _ (_create_html_message_run _ _ _ _ _ _ _ Ht Hf Hr He)).
  unfold MIMEMultipart. rewrite (bind_inr _ _ _ _ _ (alloc_run _ _ _)).
  rewrite <- app_assoc. cbn [app]. rewrite length_app. cbn [length].
  assert (Hlast : forall x y : Message, (h ++ [x; y]) !! (length h + 1) = Some y)
    by (intros x y; now rewrite lookup_new).
  assert (Hins : forall x y z : Message,
             <[length h + 1 := z]> (h ++ [x; y]) = h ++ [x; z])
    by (intros x y z; now rewrite insert_new).
  erewrite bind_inr; [|eapply attach_run; [apply Hlast | reflexivity]].
  rewrite Hins.
  erewrite bind_inr; [|eapply attach_run; [apply Hlast | reflexivity]].
  rewrite Hins.
  erewrite bind_inr;
    [|eapply set_first_part_run; [apply lookup_old; exact Hm | exact Hp]].
  reflexivity.
Qed.

(** The dispatcher, on an object of the store. *)
Lemma generate_html_msg_from_file_cases (self : MessageProcessor E) msg h r :
  generate_html_msg_from_file self msg (mkState h r) =
    match h !! msg with
    | None => (inl NoSuchObject, mkState h r)
    | Some m =>
        if Email.is_multipart m then _add_html_to_multipart self msg (mkState h r)
        else _add_html_to_plain self msg (mkState h r)
    end.
Proof.
  unfold generate_html_msg_from_file.
  destruct (h !! msg) as [m|] eqn:Hm.
  - rewrite (bind_inr _ _ _ _ _ (is_multipart_run _ _ _ _ Hm)).
    now destruct (Email.is_multipart m).
  - unfold is_multipart, deref, bind. simpl. now rewrite Hm.
Qed.

End Runs.

(** When the library builds the HTML leaf, its construction raises
    nothing. *)
Lemma html_leaf_built_error `{Codecs} (allow_8bit : bool) (charset : option string)
    (html_str : string) :
  html_leaf_built allow_8bit charset html_str ->
  html_leaf_error allow_8bit charset html_str = None.
Proof. unfold html_leaf_built, html_leaf_error. now destruct allow_8bit. Qed.

(** * The claims of the specification *)





(** C3: when the first part of a container is not text/plain, the
    multipart path raises [MessageTypeError], and the value it carries
    names the content type of the container, not the type of the
    offending part. *)
Theorem first_part_error_names_container {E : Type} `{Codecs}
    (self : MessageProcessor E) (msg t : addr) (rest : list addr) (m tm : Message)
    (h : list Message) (r : list Payload) :
  h !! msg = Some m ->
  _payload m = PList (t :: rest) ->
  h !! t = Some tm ->
  Email.get_content_type tm <> "text/plain" ->
  generate_html_msg_from_file self msg (mkState h r)
  = (inl (MessageTypeError
            ("Expected component 1 to be text/plain, but got "
               +:+ Email.get_content_type m +:+ ".")),
     mkState h r).
Proof.
  intros Hm Hp Ht Htype.
  assert (Hmulti : Email.is_multipart m = true)
    by (unfold Email.is_multipart; now rewrite Hp).
  rewrite generate_html_msg_from_file_cases, Hm, Hmulti.
  rewrite _add_html_to_multipart_cases, Hm, Hp, Ht.
  apply String.eqb_neq in Htype. now rewrite Htype.
Qed.

Lemma first_part_error_names_container_witness :
  generate_html_msg_from_file (H := Examples.codecs)
    (__init__ (Some Examples.render) false) 0 Examples.html_first_store
  = (inl (MessageTypeError
            "Expected component 1 to be text/plain, but got multipart/mixed."),
     Examples.html_first_store).
Proof.
  apply (first_part_error_names_container (H := Examples.codecs)
           (__init__ (Some Examples.render) false)
           0 1 [2] Examples.mixed_msg Examples.html_msg
           [Examples.mixed_msg; Examples.html_msg; Examples.pdf_msg] []);
    [reflexivity | reflexivity | reflexivity | discriminate].
Defined.

(** C4: the code does not raise here.  The multipart path checks that
    its input is a container and that the first part is text/plain; the
    content type of the container itself is never looked at.  So a
    multipart/alternative container whose first part is text/plain, the
    shape that the plain path returns, is accepted: the transformation
    never ends with [MessageTypeError] on it, and when the rendering
    function returns and the library builds the HTML leaf it returns the
    container with its first slot replaced by a new object, a second
    multipart/alternative container. *)
Theorem transformed_shape_is_accepted {E : Type} `{Codecs}
    (self : MessageProcessor E) (msg t : addr) (rest : list addr) (m tm : Message)
    (h : list Message) (r : list Payload) :
  h !! msg = Some m ->
  Email.get_content_type m = "multipart/alternative" ->
  _payload m = PList (t :: rest) ->
  h !! t = Some tm ->
  Email.get_content_type tm = "text/plain" ->
  (forall value : string,
      fst (generate_html_msg_from_file self msg (mkState h r))
      <> inl (MessageTypeError value)) /\
  (forall (f : Payload -> E + string) (html_str : string),
      html_parser self = Some f ->
      f (_payload tm) = inr html_str ->
      Email.plain_params tm = true ->
      html_leaf_built (allow_8bit self) (Email.get_content_charset tm) html_str ->
      exists (st' : State) (alt_msg : addr) (m' alt : Message),
        generate_html_msg_from_file self msg (mkState h r) = (inr msg, st') /\
        heap st' !! msg = Some m' /\
        _payload m' = PList (alt_msg :: rest) /\
        h !! alt_msg = None /\
        heap st' !! alt_msg = Some alt /\
        Email.get_content_type alt = "multipart/alternative").
Proof.
  intros Hm _ Hp Ht Htype.
  assert (Hmulti : Email.is_multipart m = true)
    by (unfold Email.is_multipart; now rewrite Hp).
  rewrite generate_html_msg_from_file_cases, Hm, Hmulti.
  rewrite _add_html_to_multipart_cases, Hm, Hp, Ht, Htype.
  change (negb ("text/plain" =? "text/plain")%string) with false. cbv iota.
  split.
  - intros value.
    destruct (html_parser self) as [f|]; [|discriminate].
    destruct (f (_payload tm)); [discriminate|].
    destruct (html_leaf_error _ _ _) as [[]|]; discriminate.
  - intros f html_str -> -> _ Hlib. rewrite (html_leaf_built_error _ _ _ Hlib).
    assert (Hlt : msg < length h) by (eapply lookup_lt_Some; exact Hm).
    eexists _, (length h + 1), _, _.
    split; [reflexivity|]. unfold multipart_heap. cbn [heap].
    split; [apply list_lookup_insert_eq; rewrite length_app; lia|].
    split; [reflexivity|].
    split; [apply lookup_ge_None; lia|].
    split; [rewrite list_lookup_insert_ne by lia; now rewrite lookup_new|].
    apply BuiltFacts.alternative_type.
Qed.

Lemma transformed_shape_is_accepted_witness :
  (forall value : string,
      fst (generate_html_msg_from_file (H := Examples.codecs)
             (__init__ (Some Examples.render) false) 0 Examples.transformed_store)
      <> inl (MessageTypeError value)) /\
  (exists (st' : State) (alt_msg : addr) (m' alt : Message),
      generate_html_msg_from_file (H := Examples.codecs)
        (__init__ (Some Examples.render) false) 0 Examples.transformed_store
      = (inr 0, st') /\
      heap st' !! 0 = Some m' /\
      _payload m' = PList [alt_msg; 2] /\
      heap Examples.transformed_store !! alt_msg = None /\
      heap st' !! alt_msg = Some alt /\
      Email.get_content_type alt = "multipart/alternative").
Proof.
  destruct (transformed_shape_is_accepted (H := Examples.codecs)
              (__init__ (Some Examples.render) false)
              0 1 [2] Examples.transformed_msg Examples.text_msg
              [Examples.transformed_msg; Examples.text_msg; Examples.html_msg] []
              eq_refl eq_refl eq_refl eq_refl eq_refl)
    as [Hnot Hret].
  split; [exact Hnot|].
  exact (Hret Examples.render "<p>hello</p>" eq_refl eq_refl eq_refl eq_refl).
Defined.

(** C4, on the two applications themselves: on the store that holds one
    text/plain message, the second application returns the container of
    the first and raises nothing. *)
Lemma reapplying_does_not_raise :
  exists (new_msg : addr) (st1 st2 : State),
    generate_html_msg_from_file (H := Examples.codecs)
      (__init__ (Some Examples.render) false) 0 Examples.text_store = (inr new_msg, st1) /\
    generate_html_msg_from_file (H := Examples.codecs)
      (__init__ (Some Examples.render) false) new_msg st1 = (inr new_msg, st2) /\
    forall value : string,
      fst (generate_html_msg_from_file (H := Examples.codecs)
             (__init__ (Some Examples.render) false) new_msg st1)
      <> inl (MessageTypeError value).
Proof.
  eexists _, _, _. split; [vm_compute; reflexivity|].
  split; [vm_compute; reflexivity|].
  intros value. vm_compute. discriminate.
Qed.

(** C5: in 8-bit mode the HTML leaf built for a text part whose charset
    is utf-8 has the Content-Transfer-Encoding field 8bit; for a text part
    whose charset is us-ascii the leaf is the one [set_charset] left,
    without the override, and its field still reads 7bit.  The rendering
    function is assumed to return. *)
Theorem eight_bit_mode_transfer_encoding {E : Type} `{Codecs}
    (self : MessageProcessor E) (f : Payload -> E + string)
    (msg : addr) (m : Message) (html_str : string)
    (h : list Message) (r : list Payload) :
  allow_8bit self = true ->
  h !! msg = Some m ->
  html_parser self = Some f ->
  f (_payload m) = inr html_str ->
  exists (st' : State) (html_part : addr) (leaf : Message),
    _create_html_message self msg (mkState h r) = (inr html_part, st') /\
    heap st' !! html_part = Some leaf /\
    (Email.get_content_charset m = Some "utf-8" ->
     Email.get "Content-Transfer-Encoding" leaf = Some "8bit") /\
    (Email.get_content_charset m = Some "us-ascii" ->
     leaf = Mime.set_charset (Some "us-ascii")
              (Mime.set_payload (PStr html_str) (Mime.MIMEText "" "html" None)) /\
     Email.get "Content-Transfer-Encoding" leaf = Some "7bit").
Proof.
  intros H8 Hm Hf Hr.
  eexists _, _, _. split.
  { apply (_create_html_message_run E self f msg m html_str h r Hm Hf Hr).
    now rewrite H8. }
  cbn [heap]. split; [apply lookup_last|]. rewrite H8. split.
  - intros ->. now apply BuiltFacts.html_leaf_8bit.
  - intros ->. split; [reflexivity|]. apply BuiltFacts.html_leaf_charset_cte.
Qed.

Lemma eight_bit_mode_transfer_encoding_witness :
  (exists (st' : State) (html_part : addr) (leaf : Message),
      _create_html_message (H := Examples.codecs)
        (__init__ (Some Examples.render) true) 0 (mkState [Examples.text_msg] [])
      = (inr html_part, st') /\
      heap st' !! html_part = Some leaf /\
      Email.get "Content-Transfer-Encoding" leaf = Some "8bit") /\
  (exists (st' : State) (html_part : addr) (leaf : Message),
      _create_html_message (H := Examples.codecs)
        (__init__ (Some Examples.render) true) 0 (mkState [Examples.ascii_msg] [])
      = (inr html_part, st') /\
      heap st' !! html_part = Some leaf /\
      Email.get "Content-Transfer-Encoding" leaf = Some "7bit").
Proof.
  split.
  - destruct (eight_bit_mode_transfer_encoding (H := Examples.codecs)
                (__init__ (Some Examples.render) true) Examples.render
                0 Examples.text_msg "<p>hello</p>" [Examples.text_msg] []
                eq_refl eq_refl eq_refl eq_refl)
      as (st' & html_part & leaf & Hrun & Hleaf & Hutf8 & _).
    exists st', html_part, leaf. repeat split; [exact Hrun | exact Hleaf |].
    apply Hutf8. reflexivity.
  - destruct (eight_bit_mode_transfer_encoding (H := Examples.codecs)
                (__init__ (Some Examples.render) true) Examples.render
                0 Examples.ascii_msg "<p>hello</p>" [Examples.ascii_msg] []
                eq_refl eq_refl eq_refl eq_refl)
      as (st' & html_part & leaf & Hrun & Hleaf & _ & Hascii).
    exists st', html_part, leaf. repeat split; [exact Hrun | exact Hleaf |].
    apply Hascii. reflexivity.
Defined.

(** C6: in the multipart path, when the rendering function raises on the
    text of the first part, what it raised propagates as it is and the
    store is the one the call started from.  More generally the path
    writes the first slot of the container last: whenever it raises, no
    object of the store has changed. *)
Theorem multipart_path_failure_keeps_input {E : Type} `{Codecs}
    (self : MessageProcessor E) (f : Payload -> E + string) (e : E)
    (msg t : addr) (rest : list addr) (m tm : Message)
    (h : list Message) (r : list Payload) :
  h !! msg = Some m ->
  _payload m = PList (t :: rest) ->
  h !! t = Some tm ->
  Email.get_content_type tm = "text/plain" ->
  html_parser self = Some f ->
  f (_payload tm) = inl e ->
  _add_html_to_multipart self msg (mkState h r)
  = (inl (RendererError e), mkState h (r ++ [_payload tm])) /\
  generate_html_msg_from_file self msg (mkState h r)
  = (inl (RendererError e), mkState h (r ++ [_payload tm])) /\
  (forall (st st' : State) (a : addr) (err : exn E),
      _add_html_to_multipart self a st = (inl err, st') -> heap st' = heap st).
Proof.
  intros Hm Hp Ht Htype Hf Hr.
  assert (Hrun : _add_html_to_multipart self msg (mkState h r)
                 = (inl (RendererError e), mkState h (r ++ [_payload tm]))).
  { rewrite _add_html_to_multipart_cases, Hm, Hp, Ht, Htype, Hf, Hr. reflexivity. }
  split; [exact Hrun|]. split.
  - rewrite generate_html_msg_from_file_cases, Hm.
    unfold Email.is_multipart. rewrite Hp. exact Hrun.
  - intros [h0 r0] st' a err. rewrite _add_html_to_multipart_cases.
    destruct (h0 !! a) as [m0|]; [|now intros [= _ <-]].
    destruct (_payload m0) as [s|[|t0 rest0]]; try (now intros [= _ <-]).
    destruct (h0 !! t0) as [tm0|]; [|now intros [= _ <-]].
    destruct (negb _); [now intros [= _ <-]|].
    destruct (html_parser self) as [f0|]; [|now intros [= _ <-]].
    destruct (f0 (_payload tm0)); [now intros [= _ <-]|].
    destruct (html_leaf_error _ _ _); [now intros [= _ <-] | discriminate].
Qed.

Lemma multipart_path_failure_keeps_input_witness :
  _add_html_to_multipart (H := Examples.codecs)
    (__init__ (Some Examples.failing_render) false) 0 Examples.mixed_store
  = (inl (RendererError tt), mkState (heap Examples.mixed_store) [PStr "hello"]) /\
  generate_html_msg_from_file (H := Examples.codecs)
    (__init__ (Some Examples.failing_render) false) 0 Examples.mixed_store
  = (inl (RendererError tt), mkState (heap Examples.mixed_store) [PStr "hello"]) /\
  (forall (st st' : State) (a : addr) (err : exn unit),
      _add_html_to_multipart (H := Examples.codecs)
        (__init__ (Some Examples.failing_render) false) a st = (inl err, st') ->
      heap st' = heap st).
Proof.
  apply (multipart_path_failure_keeps_input (H := Examples.codecs)
           (__init__ (Some Examples.failing_render) false) Examples.failing_render tt
           0 1 [2] Examples.mixed_msg Examples.text_msg
           [Examples.mixed_msg; Examples.text_msg; Examples.pdf_msg] []);
    reflexivity.
Defined.

(** C7: whenever the transformation returns, the alternative container it
    produced (the result itself on the plain path, the first part of the
    result on the multipart path) is a new object whose parts are a
    text/plain part and a text/html part, the text/plain part standing
    strictly before the text/html part. *)
Theorem text_part_precedes_html_part {E : Type} `{Codecs}
    (self : MessageProcessor E) (msg : addr) (m : Message)
    (h : list Message) (r : list Payload) (res : addr) (st' : State) :
  h !! msg = Some m ->
  generate_html_msg_from_file self msg (mkState h r) = (inr res, st') ->
  exists (alt_msg : addr) (alt : Message) (parts : list addr),
    (Email.is_multipart m = false -> alt_msg = res) /\
    (Email.is_multipart m = true ->
     res = msg /\
     exists c others, heap st' !! msg = Some c /\ _payload c = PList (alt_msg :: others)) /\
    h !! alt_msg = None /\
    heap st' !! alt_msg = Some alt /\
    Email.get_content_type alt = "multipart/alternative" /\
    _payload alt = PList parts /\
    length parts = 2 /\
    text_before_html (heap st') parts.
Proof.
  intros Hm. rewrite generate_html_msg_from_file_cases, Hm.
  assert (Horder : forall (h' : list Message) (t p : addr) (tm pm : Message),
             h' !! t = Some tm -> Email.get_content_type tm = "text/plain" ->
             h' !! p = Some pm -> Email.get_content_type pm = "text/html" ->
             text_before_html h' [t; p]).
  { intros h' t p tm pm Ht Htm Hp Hpm. split.
    - exists 0, 1, t, p. repeat split; [now exists tm | now exists pm].
    - intros i j a b Hi (x & Hx & Hxt) Hj (y & Hy & Hyt).
      destruct i as [|[|i]], j as [|[|j]]; try discriminate; try lia;
        simpl in Hi, Hj; injection Hi as <-; injection Hj as <-; congruence. }
  destruct (Email.is_multipart m) eqn:Hmulti.
  - rewrite _add_html_to_multipart_cases, Hm.
    destruct (_payload m) as [s|[|t rest]] eqn:Hp; try discriminate.
    destruct (h !! t) as [tm|] eqn:Ht; [|discriminate].
    destruct (negb _) eqn:Htype; [discriminate|].
    destruct (html_parser self) as [f|]; [|discriminate].
    destruct (f (_payload tm)) as [e|html_str]; [discriminate|].
    destruct (html_leaf_error _ _ _); [discriminate|].
    intros [= <- <-]. cbn [heap]. unfold multipart_heap.
    apply negb_false_iff, String.eqb_eq in Htype.
    assert (Hlt : msg < length h) by (eapply lookup_lt_Some; exact Hm).
    exists (length h + 1), (alternative t (length h)), [t; length h].
    split; [discriminate|]. split.
    { intros _. split; [reflexivity|].
      exists (Mime.set_payload (PList (length h + 1 :: rest)) m), rest.
      split; [|reflexivity].
      apply list_lookup_insert_eq. rewrite length_app. lia. }
    split; [apply lookup_ge_None; lia|].
    split; [rewrite list_lookup_insert_ne by lia; now rewrite lookup_new|].
    split; [reflexivity|]. split; [reflexivity|]. split; [reflexivity|].
    destruct (decide (t = msg)) as [->|Hne].
    + eapply Horder.
      * apply list_lookup_insert_eq. rewrite length_app. lia.
      * rewrite Hm in Ht. injection Ht as <-. exact Htype.
      * rewrite list_lookup_insert_ne by lia. apply lookup_mid.
      * apply BuiltFacts.html_leaf_type.
    + eapply Horder.
      * rewrite list_lookup_insert_ne by congruence. apply lookup_old. exact Ht.
      * exact Htype.
      * rewrite list_lookup_insert_ne by lia. apply lookup_mid.
      * apply BuiltFacts.html_leaf_type.
  - rewrite _add_html_to_plain_cases, Hm. unfold plain_mismatch. rewrite Hmulti.
    destruct (negb _) eqn:Htype; [discriminate|]. cbn [orb].
    destruct (html_parser self) as [f|]; [|discriminate].
    destruct (f (_payload m)) as [e|html_str]; [discriminate|].
    destruct (html_leaf_error _ _ _); [discriminate|].
    intros [= <- <-]. cbn [heap]. unfold plain_heap.
    apply negb_false_iff, String.eqb_eq in Htype.
    exists (length h), (alternative_of m (length h + 1) (length h + 2)),
      [length h + 1; length h + 2].
    split; [reflexivity|]. split; [discriminate|].
    split; [apply lookup_ge_None; lia|].
    split; [apply lookup_mid|].
    split; [apply BuiltFacts.alternative_of_type|].
    split; [reflexivity|]. split; [reflexivity|].
    eapply Horder.
    + now rewrite lookup_new.
    + now apply BuiltFacts.text_leaf_type.
    + now rewrite lookup_new.
    + apply BuiltFacts.html_leaf_type.
Qed.

Lemma text_part_precedes_html_part_witness :
  exists (st' : State),
    generate_html_msg_from_file (H := Examples.codecs)
      (__init__ (Some Examples.render) true) 0 Examples.mixed_store = (inr 0, st') /\
    exists (alt_msg : addr) (alt : Message) (parts : list addr),
      (Email.is_multipart Examples.mixed_msg = false -> alt_msg = 0) /\
      (Email.is_multipart Examples.mixed_msg = true ->
       0 = 0 /\
       exists c others, heap st' !! 0 = Some c /\ _payload c = PList (alt_msg :: others)) /\
      heap Examples.mixed_store !! alt_msg = None /\
      heap st' !! alt_msg = Some alt /\
      Email.get_content_type alt = "multipart/alternative" /\
      _payload alt = PList parts /\
      length parts = 2 /\
      text_before_html (heap st') parts.
Proof.
  assert (Hrun : { st' : State |
                   generate_html_msg_from_file (H := Examples.codecs)
                     (__init__ (Some Examples.render) true) 0 Examples.mixed_store
                   = (inr 0, st') })
    by (eexists; vm_compute; reflexivity).
  destruct Hrun as [st' Hrun].
  exists st'. split; [exact Hrun|].
  exact (text_part_precedes_html_part (H := Examples.codecs)
           (__init__ (Some Examples.render) true) 0 Examples.mixed_msg
           [Examples.mixed_msg; Examples.text_msg; Examples.pdf_msg] [] 0 st'
           eq_refl Hrun).
Defined.

(** C8: whenever the transformation returns, the rendering function has
    been called exactly once, and its argument is the payload that the
    original text leaf (the message itself, or the first part of a
    container) had when the call started. *)
Theorem renderer_receives_original_payload {E : Type} `{Codecs}
    (self : MessageProcessor E) (msg : addr)
    (h : list Message) (r : list Payload) (res : addr) (st' : State) :
  generate_html_msg_from_file self msg (mkState h r) = (inr res, st') ->
  exists (leaf : addr) (tm : Message),
    text_leaf_of h msg = Some leaf /\
    h !! leaf = Some tm /\
    rendered st' = r ++ [_payload tm].
Proof.
  rewrite generate_html_msg_from_file_cases. unfold text_leaf_of.
  destruct (h !! msg) as [m|] eqn:Hm; [|discriminate].
  destruct (Email.is_multipart m) eqn:Hmulti.
  - rewrite _add_html_to_multipart_cases, Hm.
    destruct (_payload m) as [s|[|t rest]]; try discriminate.
    destruct (h !! t) as [tm|] eqn:Ht; [|discriminate].
    destruct (negb _); [discriminate|].
    destruct (html_parser self) as [f|]; [|discriminate].
    destruct (f (_payload tm)) as [e|html_str]; [discriminate|].
    destruct (html_leaf_error _ _ _); [discriminate|].
    intros [= <- <-]. now exists t, tm.
  - rewrite _add_html_to_plain_cases, Hm.
    destruct (plain_mismatch m); [discriminate|].
    destruct (html_parser self) as [f|]; [|discriminate].
    destruct (f (_payload m)) as [e|html_str]; [discriminate|].
    destruct (html_leaf_error _ _ _); [discriminate|].
    intros [= <- <-]. exists msg, m. unfold Email.is_multipart in Hmulti.
    destruct (_payload m); [now split | discriminate].
Qed.

Lemma renderer_receives_original_payload_witness :
  exists (st' : State),
    generate_html_msg_from_file (H := Examples.codecs)
      (__init__ (Some Examples.render) false) 0 Examples.mixed_store = (inr 0, st') /\
    exists (leaf : addr) (tm : Message),
      text_leaf_of (heap Examples.mixed_store) 0 = Some leaf /\
      heap Examples.mixed_store !! leaf = Some tm /\
      rendered st' = [] ++ [_payload tm].
Proof.
  assert (Hrun : { st' : State |
                   generate_html_msg_from_file (H := Examples.codecs)
                     (__init__ (Some Examples.render) false) 0 Examples.mixed_store
                   = (inr 0, st') })
    by (eexists; vm_compute; reflexivity).
  destruct Hrun as [st' Hrun].
  exists st'. split; [exact Hrun|].
  exact (renderer_receives_original_payload (H := Examples.codecs)
           (__init__ (Some Examples.render) false) 0
           [Examples.mixed_msg; Examples.text_msg; Examples.pdf_msg] [] 0 st' Hrun).
Defined.

(** C9: the plain path raises [MessageTypeError], carrying the content
    type of its input, exactly when the input is a container or its
    content type is not text/plain, and then the store is untouched;
    otherwise it raises no [MessageTypeError], and it returns whenever the
    rendering function returns and the library builds the HTML leaf (the
    Content-Type field having no extended parameter). *)
Theorem plain_path_precondition {E : Type} `{Codecs}
    (self : MessageProcessor E) (msg : addr) (m : Message)
    (h : list Message) (r : list Payload) :
  h !! msg = Some m ->
  (Email.is_multipart m = true \/ Email.get_content_type m <> "text/plain" ->
   _add_html_to_plain self msg (mkState h r)
   = (inl (MessageTypeError
             ("Expected text/plain, but got " +:+ Email.get_content_type m +:+ ".")),
      mkState h r)) /\
  (Email.is_multipart m = false -> Email.get_content_type m = "text/plain" ->
   (forall value : string,
       fst (_add_html_to_plain self msg (mkState h r)) <> inl (MessageTypeError value)) /\
   (forall (f : Payload -> E + string) (html_str : string),
       html_parser self = Some f -> f (_payload m) = inr html_str ->
       Email.plain_params m = true ->
       html_leaf_built (allow_8bit self) (Email.get_content_charset m) html_str ->
       exists (new_msg : addr) (st' : State),
         _add_html_to_plain self msg (mkState h r) = (inr new_msg, st'))).
Proof.
  intros Hm. rewrite _add_html_to_plain_cases, Hm. split.
  - intros Hbad.
    assert (Hmis : plain_mismatch m = true).
    { unfold plain_mismatch. destruct Hbad as [-> | Htype]; [reflexivity|].
      apply String.eqb_neq in Htype. rewrite Htype. apply orb_true_r. }
    now rewrite Hmis.
  - intros Hleaf Htype.
    assert (Hmis : plain_mismatch m = false)
      by (unfold plain_mismatch; rewrite Hleaf, Htype; reflexivity).
    rewrite Hmis. split.
    + intros value.
      destruct (html_parser self) as [f|]; [|discriminate].
      destruct (f (_payload m)); [discriminate|].
      destruct (html_leaf_error _ _ _) as [[]|]; discriminate.
    + intros f html_str -> -> _ Hlib. rewrite (html_leaf_built_error _ _ _ Hlib).
      eexists _, _. reflexivity.
Qed.

Lemma plain_path_precondition_witness :
  (_add_html_to_plain (H := Examples.codecs)
     (__init__ (Some Examples.render) false) 1 Examples.html_first_store
   = (inl (MessageTypeError "Expected text/plain, but got text/html."),
      Examples.html_first_store)) /\
  (exists (new_msg : addr) (st' : State),
      _add_html_to_plain (H := Examples.codecs)
        (__init__ (Some Examples.render) false) 0 Examples.text_store
      = (inr new_msg, st')).
Proof.
  split.
  - apply (plain_path_precondition (H := Examples.codecs)
             (__init__ (Some Examples.render) false) 1 Examples.html_msg
             [Examples.mixed_msg; Examples.html_msg; Examples.pdf_msg] [] eq_refl).
    right. discriminate.
  - apply (plain_path_precondition (H := Examples.codecs)
             (__init__ (Some Examples.render) false) 0 Examples.text_msg
             [Examples.text_msg] [] eq_refl)
      with (f := Examples.render) (html_str := "<p>hello</p>"); reflexivity.
Defined.

(** C10: the public operation never raises the [MessageTypeError] of the
    multipart path for an input that is not a container: the dispatcher
    gives that path containers only. *)
Theorem dispatcher_never_misroutes {E : Type} `{Codecs}
    (self : MessageProcessor E) (msg : addr) (st : State) (ctype : string) :
  fst (generate_html_msg_from_file self msg st)
  <> inl (MessageTypeError ("Expected multipart/alternative, but got " +:+ ctype +:+ ".")).
Proof.
  destruct st as [h r]. rewrite generate_html_msg_from_file_cases.
  destruct (h !! msg) as [m|] eqn:Hm; [|discriminate].
  destruct (Email.is_multipart m) eqn:Hmulti.
  - rewrite _add_html_to_multipart_cases, Hm.
    unfold Email.is_multipart in Hmulti.
    destruct (_payload m) as [s|[|t rest]]; try discriminate.
    destruct (h !! t) as [tm|]; [|discriminate].
    destruct (negb _); [discriminate|].
    destruct (html_parser self) as [f|]; [|discriminate].
    destruct (f (_payload tm)); [discriminate|].
    destruct (html_leaf_error _ _ _) as [[]|]; discriminate.
  - rewrite _add_html_to_plain_cases, Hm.
    destruct (plain_mismatch m); [discriminate|].
    destruct (html_parser self) as [f|]; [|discriminate].
    destruct (f (_payload m)); [discriminate|].
    destruct (html_leaf_error _ _ _) as [[]|]; discriminate.
Qed.

(** * Further properties of the processor *)

(** X1: the plain path never writes to an object that was in the store
    when it was called: whatever the outcome, the store it leaves is the
    initial store followed by the objects it has created. *)
Theorem plain_path_only_allocates {E : Type} `{Codecs}
    (self : MessageProcessor E) (msg : addr) (st : State) :
  exists created : list Message,
    heap (snd (_add_html_to_plain self msg st)) = heap st ++ created.
Proof.
  destruct st as [h r]. rewrite _add_html_to_plain_cases.
  destruct (h !! msg) as [m|]; [|exists []; now rewrite app_nil_r].
  destruct (plain_mismatch m); [exists []; now rewrite app_nil_r|].
  destruct (html_parser self) as [f|]; [|eexists; reflexivity].
  destruct (f (_payload m)); [eexists; reflexivity|].
  destruct (html_leaf_error _ _ _); eexists; reflexivity.
Qed.

(** X2: a processor built without a rendering function raises
    [TypeError] on every input that passes the shape check, and the
    rendering log is untouched. *)
Theorem missing_renderer_raises_type_error {E : Type} `{Codecs}
    (self : MessageProcessor E) (msg leaf : addr) (tm : Message)
    (h : list Message) (r : list Payload) :
  html_parser self = None ->
  text_leaf_of h msg = Some leaf ->
  h !! leaf = Some tm ->
  Email.get_content_type tm = "text/plain" ->
  fst (generate_html_msg_from_file self msg (mkState h r)) = inl TypeError /\
  rendered (snd (generate_html_msg_from_file self msg (mkState h r))) = r.
Proof.
  intros Hf Hleaf Htm Htype. rewrite generate_html_msg_from_file_cases.
  unfold text_leaf_of in Hleaf.
  destruct (h !! msg) as [m|] eqn:Hm; [|discriminate].
  unfold Email.is_multipart.
  destruct (_payload m) as [s|[|t rest]] eqn:Hp; [| discriminate |].
  - injection Hleaf as <-. rewrite Hm in Htm. injection Htm as <-.
    rewrite _add_html_to_plain_cases, Hm. unfold plain_mismatch, Email.is_multipart.
    rewrite Hp, Htype, Hf. split; reflexivity.
  - injection Hleaf as <-.
    rewrite _add_html_to_multipart_cases, Hm, Hp, Htm, Htype, Hf. split; reflexivity.
Qed.

Lemma missing_renderer_raises_type_error_witness :
  fst (generate_html_msg_from_file (H := Examples.codecs)
         (__init__ (E := unit) None false) 0 Examples.mixed_store) = inl TypeError /\
  rendered (snd (generate_html_msg_from_file (H := Examples.codecs)
                   (__init__ (E := unit) None false) 0 Examples.mixed_store)) = [].
Proof.
  apply (missing_renderer_raises_type_error (H := Examples.codecs)
           (__init__ (E := unit) None false) 0 1 Examples.text_msg
           [Examples.mixed_msg; Examples.text_msg; Examples.pdf_msg] []);
    reflexivity.
Defined.

(** X3: a container without parts makes the multipart path, and the
    public operation, raise [IndexError]; nothing is rendered and the
    store is untouched. *)
Theorem empty_container_raises_index_error {E : Type} `{Codecs}
    (self : MessageProcessor E) (msg : addr) (m : Message)
    (h : list Message) (r : list Payload) :
  h !! msg = Some m ->
  _payload m = PList [] ->
  _add_html_to_multipart self msg (mkState h r) = (inl IndexError, mkState h r) /\
  generate_html_msg_from_file self msg (mkState h r) = (inl IndexError, mkState h r).
Proof.
  intros Hm Hp.
  assert (Hrun : _add_html_to_multipart self msg (mkState h r)
                 = (inl IndexError, mkState h r))
    by (rewrite _add_html_to_multipart_cases, Hm, Hp; reflexivity).
  split; [exact Hrun|].
  rewrite generate_html_msg_from_file_cases, Hm. unfold Email.is_multipart.
  now rewrite Hp.
Qed.

Lemma empty_container_raises_index_error_witness :
  _add_html_to_multipart (H := Examples.codecs)
    (__init__ (Some Examples.render) false) 0 (mkState [Examples.empty_container] [])
  = (inl IndexError, mkState [Examples.empty_container] []) /\
  generate_html_msg_from_file (H := Examples.codecs)
    (__init__ (Some Examples.render) false) 0 (mkState [Examples.empty_container] [])
  = (inl IndexError, mkState [Examples.empty_container] []).
Proof.
  apply (empty_container_raises_index_error (H := Examples.codecs)
           (__init__ (Some Examples.render) false) 0 Examples.empty_container
           [Examples.empty_container] []);
    reflexivity.
Defined.

(** X4: a [MessageTypeError] of the public operation is raised before any
    effect: the store and the rendering log are the ones the call started
    from. *)
Theorem shape_error_has_no_effect {E : Type} `{Codecs}
    (self : MessageProcessor E) (msg : addr) (st st' : State) (value : string) :
  generate_html_msg_from_file self msg st = (inl (MessageTypeError value), st') ->
  st' = st.
Proof.
  destruct st as [h r]. rewrite generate_html_msg_from_file_cases.
  destruct (h !! msg) as [m|] eqn:Hm; [|discriminate].
  destruct (Email.is_multipart m).
  - rewrite _add_html_to_multipart_cases, Hm.
    destruct (_payload m) as [s|[|t rest]]; try discriminate; [now intros [= _ <-]|].
    destruct (h !! t) as [tm|]; [|discriminate].
    destruct (negb _); [now intros [= _ <-]|].
    destruct (html_parser self) as [f|]; [|discriminate].
    destruct (f (_payload tm)); [discriminate|].
    destruct (html_leaf_error _ _ _) as [[]|]; discriminate.
  - rewrite _add_html_to_plain_cases, Hm.
    destruct (plain_mismatch m); [now intros [= _ <-]|].
    destruct (html_parser self) as [f|]; [|discriminate].
    destruct (f (_payload m)); [discriminate|].
    destruct (html_leaf_error _ _ _) as [[]|]; discriminate.
Qed.

Lemma shape_error_has_no_effect_witness :
  exists st' : State,
    generate_html_msg_from_file (H := Examples.codecs)
      (__init__ (Some Examples.render) false) 0 Examples.html_first_store
    = (inl (MessageTypeError
              "Expected component 1 to be text/plain, but got multipart/mixed."),
       st') /\
    st' = Examples.html_first_store.
Proof.
  assert (Hrun : { st' : State |
                   generate_html_msg_from_file (H := Examples.codecs)
                     (__init__ (Some Examples.render) false) 0 Examples.html_first_store
                   = (inl (MessageTypeError
                             "Expected component 1 to be text/plain, but got multipart/mixed."),
                      st') })
    by (eexists; vm_compute; reflexivity).
  destruct Hrun as [st' Hrun].
  exists st'. split; [exact Hrun|].
  exact (shape_error_has_no_effect (H := Examples.codecs)
           (__init__ (Some Examples.render) false) 0
           Examples.html_first_store st' _ Hrun).
Defined.

(** X5: the steps of the processor itself never raise [KeyError] or
    [AttributeError]: the header that the 8-bit mode replaces is always
    there, since [MIMEText] has set it, and the first part is only taken
    from a list.  What the rendering function raises is apart: it reaches
    the caller as it is, as [RendererError], whatever its class. *)
Theorem no_key_or_attribute_error {E : Type} `{Codecs}
    (self : MessageProcessor E) (msg : addr) (st : State) :
  fst (generate_html_msg_from_file self msg st) <> inl KeyError /\
  fst (generate_html_msg_from_file self msg st) <> inl AttributeError.
Proof.
  destruct st as [h r]. rewrite generate_html_msg_from_file_cases.
  destruct (h !! msg) as [m|] eqn:Hm; [|split; discriminate].
  destruct (Email.is_multipart m).
  - rewrite _add_html_to_multipart_cases, Hm.
    destruct (_payload m) as [s|[|t rest]]; try (split; discriminate).
    destruct (h !! t) as [tm|]; [|split; discriminate].
    destruct (negb _); [split; discriminate|].
    destruct (html_parser self) as [f|]; [|split; discriminate].
    destruct (f (_payload tm)); [split; discriminate|].
    destruct (html_leaf_error _ _ _) as [[]|]; split; discriminate.
  - rewrite _add_html_to_plain_cases, Hm.
    destruct (plain_mismatch m); [split; discriminate|].
    destruct (html_parser self) as [f|]; [|split; discriminate].
    destruct (f (_payload m)); [split; discriminate|].
    destruct (html_leaf_error _ _ _) as [[]|]; split; discriminate.
Qed.

(** X6: the multipart path is not re-entrant either, and here the second
    application does raise: whenever a first application to a container
    has returned, the first part of the container is the new
    multipart/alternative container, which is not text/plain, so the
    second application raises [MessageTypeError] (naming the content
    type of the outer container) and leaves the store as the first
    application left it. *)
Theorem reapplying_to_multipart_result_raises {E : Type} `{Codecs}
    (self : MessageProcessor E) (msg : addr) (m : Message)
    (h : list Message) (r : list Payload) (res : addr) (st1 : State) :
  h !! msg = Some m ->
  Email.is_multipart m = true ->
  generate_html_msg_from_file self msg (mkState h r) = (inr res, st1) ->
  res = msg /\
  generate_html_msg_from_file self msg st1
  = (inl (MessageTypeError
            ("Expected component 1 to be text/plain, but got "
               +:+ Email.get_content_type m +:+ ".")),
     st1).
Proof.
  intros Hm Hmulti.
  rewrite generate_html_msg_from_file_cases, Hm, Hmulti.
  rewrite _add_html_to_multipart_cases, Hm.
  destruct (_payload m) as [s|[|t rest]] eqn:Hp; try discriminate.
  destruct (h !! t) as [tm|] eqn:Ht; [|discriminate].
  destruct (negb _); [discriminate|].
  destruct (html_parser self) as [f|]; [|discriminate].
  destruct (f (_payload tm)) as [e|html_str]; [discriminate|].
  destruct (html_leaf_error _ _ _); [discriminate|].
  intros [= <- <-]. split; [reflexivity|].
  assert (Hlt : msg < length h) by (eapply lookup_lt_Some; exact Hm).
  set (h1 := multipart_heap self h msg m t rest tm html_str).
  set (m1 := Mime.set_payload (PList (length h + 1 :: rest)) m).
  assert (H1 : h1 !! msg = Some m1).
  { unfold h1, multipart_heap. apply list_lookup_insert_eq. rewrite length_app. lia. }
  assert (HA : h1 !! (length h + 1) = Some (alternative t (length h))).
  { unfold h1, multipart_heap. rewrite list_lookup_insert_ne by lia.
    now rewrite lookup_new. }
  rewrite generate_html_msg_from_file_cases, H1.
  change (Email.is_multipart m1) with true. cbv iota.
  rewrite _add_html_to_multipart_cases, H1.
  change (_payload m1) with (PList (length h + 1 :: rest)). cbv iota.
  rewrite HA. reflexivity.
Qed.

Lemma reapplying_to_multipart_result_raises_witness :
  exists st1 : State,
    generate_html_msg_from_file (H := Examples.codecs)
      (__init__ (Some Examples.render) false) 0 Examples.mixed_store = (inr 0, st1) /\
    0 = 0 /\
    generate_html_msg_from_file (H := Examples.codecs)
      (__init__ (Some Examples.render) false) 0 st1
    = (inl (MessageTypeError
              ("Expected component 1 to be text/plain, but got "
                 +:+ Email.get_content_type Examples.mixed_msg +:+ ".")),
       st1).
Proof.
  assert (Hrun : { st1 : State |
                   generate_html_msg_from_file (H := Examples.codecs)
                     (__init__ (Some Examples.render) false) 0 Examples.mixed_store
                   = (inr 0, st1) })
    by (eexists; vm_compute; reflexivity).
  destruct Hrun as [st1 Hrun].
  exists st1. split; [exact Hrun|].
  exact (reapplying_to_multipart_result_raises (H := Examples.codecs)
           (__init__ (Some Examples.render) false) 0 Examples.mixed_msg
           [Examples.mixed_msg; Examples.text_msg; Examples.pdf_msg] [] 0 st1
           eq_refl eq_refl Hrun).
Defined.

(** X7: in the plain path too, what the rendering function raises
    propagates as it is; the function has been called once, on the
    payload of the message, and the objects that were in the store,
    the message among them, are as they were. *)
Theorem plain_path_renderer_failure_propagates {E : Type} `{Codecs}
    (self : MessageProcessor E) (f : Payload -> E + string) (e : E)
    (msg : addr) (m : Message) (text : string)
    (h : list Message) (r : list Payload) :
  h !! msg = Some m ->
  _payload m = PStr text ->
  Email.get_content_type m = "text/plain" ->
  html_parser self = Some f ->
  f (PStr text) = inl e ->
  exists st' : State,
    generate_html_msg_from_file self msg (mkState h r) = (inl (RendererError e), st') /\
    rendered st' = r ++ [PStr text] /\
    (forall (a : addr) (x : Message), h !! a = Some x -> heap st' !! a = Some x).
Proof.
  intros Hm Hp Htype Hf Hr.
  assert (Hleaf : Email.is_multipart m = false)
    by (unfold Email.is_multipart; now rewrite Hp).
  eexists. split.
  - rewrite generate_html_msg_from_file_cases, Hm, Hleaf.
    rewrite _add_html_to_plain_cases, Hm. unfold plain_mismatch.
    rewrite Hleaf, Htype, Hf, Hp, Hr. reflexivity.
  - cbn [heap rendered]. split; [reflexivity|].
    intros a x Ha. now apply lookup_old.
Qed.

Lemma plain_path_renderer_failure_propagates_witness :
  exists st' : State,
    generate_html_msg_from_file (H := Examples.codecs)
      (__init__ (Some Examples.failing_render) false) 0 Examples.text_store
    = (inl (RendererError tt), st') /\
    rendered st' = [] ++ [PStr "hello"] /\
    (forall (a : addr) (x : Message),
        heap Examples.text_store !! a = Some x -> heap st' !! a = Some x).
Proof.
  apply (plain_path_renderer_failure_propagates (H := Examples.codecs)
           (__init__ (Some Examples.failing_render) false) Examples.failing_render tt
           0 Examples.text_msg "hello" [Examples.text_msg] []);
    reflexivity.
Defined.

(** [set_charset] on a message that declares a transfer encoding, with no
    charset or with one that the package does not convert on output:
    the payload stays as it is. *)
Lemma set_charset_keeps_payload `{Codecs} (charset : option string) (m : Message)
    (v : string) :
  Email.get "Content-Transfer-Encoding" m = Some v ->
  match charset with
  | Some name => Charset.converts (Charset.Charset name) = false
  | None => True
  end ->
  _payload (Mime.set_charset charset m) = _payload m.
Proof.
  intros Hget Hconv. destruct charset as [name|]; simpl.
  - rewrite Hconv.
    set (cs := Charset.Charset name).
    set (m1 := if Email.contains "MIME-Version" m then m
               else Email.setitem "MIME-Version" "1.0" m).
    assert (H1 : Email.get "Content-Transfer-Encoding" m1 = Some v /\
                 _payload m1 = _payload m).
    { subst m1. destruct (Email.contains "MIME-Version" m); [now split|].
      split; [|reflexivity].
      rewrite EmailFacts.get_setitem_other; [exact Hget | discriminate]. }
    destruct H1 as [H1 P1].
    set (m2 := if Email.contains "Content-Type" m1
               then Mime.set_param "charset" (Charset.get_output_charset cs) m1
               else Mime.add_header_charset "Content-Type" "text/plain"
                      (Charset.get_output_charset cs) m1).
    assert (H2 : Email.get "Content-Transfer-Encoding" m2 = Some v /\
                 _payload m2 = _payload m).
    { subst m2. destruct (Email.contains "Content-Type" m1).
      - destruct (MimeFacts.set_param_cases "charset" (Charset.get_output_charset cs) m1)
          as [-> | [c ->]]; [now split|].
        split; [|exact P1].
        rewrite EmailFacts.get_setitem_other, EmailFacts.get_delitem_other
          by exact MimeFacts.cte_other_content_type.
        exact H1.
      - split; [|exact P1]. unfold Mime.add_header_charset.
        rewrite EmailFacts.get_setitem_other by exact MimeFacts.cte_other_content_type.
        exact H1. }
    destruct H2 as [H2 P2].
    assert (Hin : Email.contains "Content-Transfer-Encoding" m2 = true)
      by (apply EmailFacts.contains_get; rewrite H2; discriminate).
    rewrite Hin. exact P2.
  - destruct (MimeFacts.del_param_cases "charset" m) as [-> | [c ->]]; reflexivity.
Qed.

(** X8: in 8-bit mode the HTML leaf is declared 8bit for every charset
    of the text part other than the exact name us-ascii, a missing
    charset and the alias ascii included, and 7bit for us-ascii.  The
    rendering function is assumed to return; the Content-Type field of
    the text part has no extended parameter, and its charset is not one
    that the library converts on output. *)
Theorem eight_bit_mode_for_every_charset {E : Type} `{Codecs}
    (self : MessageProcessor E) (f : Payload -> E + string)
    (msg : addr) (m : Message) (html_str : string)
    (h : list Message) (r : list Payload) :
  allow_8bit self = true ->
  h !! msg = Some m ->
  Email.plain_params m = true ->
  html_parser self = Some f ->
  f (_payload m) = inr html_str ->
  html_leaf_built true (Email.get_content_charset m) html_str ->
  exists (st' : State) (html_part : addr) (leaf : Message),
    _create_html_message self msg (mkState h r) = (inr html_part, st') /\
    heap st' !! html_part = Some leaf /\
    Email.get "Content-Transfer-Encoding" leaf
    = Some (if bool_decide (Email.get_content_charset m = Some "us-ascii")
            then "7bit" else "8bit").
Proof.
  intros H8 Hm _ Hf Hr _.
  eexists _, _, _. split.
  { apply (_create_html_message_run E self f msg m html_str h r Hm Hf Hr).
    now rewrite H8. }
  cbn [heap]. split; [apply lookup_last|]. rewrite H8.
  destruct (bool_decide (Email.get_content_charset m = Some "us-ascii")) eqn:Hcs.
  - apply bool_decide_eq_true in Hcs. rewrite Hcs.
    apply BuiltFacts.html_leaf_charset_cte.
  - apply bool_decide_eq_false in Hcs. now apply BuiltFacts.html_leaf_8bit.
Qed.

Lemma eight_bit_mode_for_every_charset_witness :
  exists (st' : State) (html_part : addr) (leaf : Message),
    _create_html_message (H := Examples.codecs)
      (__init__ (Some Examples.render) true) 0 (mkState [Examples.bare_msg] [])
    = (inr html_part, st') /\
    heap st' !! html_part = Some leaf /\
    Email.get "Content-Transfer-Encoding" leaf
    = Some (if bool_decide (Email.get_content_charset Examples.bare_msg = Some "us-ascii")
            then "7bit" else "8bit").
Proof.
  apply (eight_bit_mode_for_every_charset (H := Examples.codecs)
           (__init__ (Some Examples.render) true) Examples.render
           0 Examples.bare_msg "<p>hello</p>" [Examples.bare_msg] []);
    first [reflexivity | exact I].
Defined.

(** X9: in 8-bit mode the payload of the HTML leaf is the rendered text
    itself, not re-encoded, when the text part declares no charset or one
    that the package does not convert on output (its Content-Type field
    having no extended parameter). *)
Theorem eight_bit_mode_keeps_rendered_text {E : Type} `{Codecs}
    (self : MessageProcessor E) (f : Payload -> E + string)
    (msg : addr) (m : Message) (html_str : string)
    (h : list Message) (r : list Payload) :
  allow_8bit self = true ->
  h !! msg = Some m ->
  Email.plain_params m = true ->
  html_parser self = Some f ->
  f (_payload m) = inr html_str ->
  match Email.get_content_charset m with
  | Some name => Charset.converts (Charset.Charset name) = false
  | None => True
  end ->
  exists (st' : State) (html_part : addr) (leaf : Message),
    _create_html_message self msg (mkState h r) = (inr html_part, st') /\
    heap st' !! html_part = Some leaf /\
    _payload leaf = PStr html_str.
Proof.
  intros H8 Hm _ Hf Hr Hconv.
  eexists _, _, _. split.
  { apply (_create_html_message_run E self f msg m html_str h r Hm Hf Hr).
    now rewrite H8. }
  cbn [heap]. split; [apply lookup_last|]. rewrite H8.
  assert (Hleaf : _payload (html_leaf_charset (Email.get_content_charset m) html_str)
                  = PStr html_str).
  { unfold html_leaf_charset. rewrite BuiltFacts.MIMEText_empty_html.
    rewrite set_charset_keeps_payload with (v := "7bit");
      [reflexivity | reflexivity | exact Hconv]. }
  unfold html_leaf. cbv zeta. destruct (negb _); [|exact Hleaf].
  destruct (MimeFacts.replace_header_some "Content-Transfer-Encoding" "8bit" _ _
              (BuiltFacts.html_leaf_charset_cte (Email.get_content_charset m) html_str))
    as (m' & -> & _ & _ & Hpay & _).
  exact (eq_trans Hpay Hleaf).
Qed.

Lemma eight_bit_mode_keeps_rendered_text_witness :
  exists (st' : State) (html_part : addr) (leaf : Message),
    _create_html_message (H := Examples.codecs)
      (__init__ (Some Examples.render) true) 0 (mkState [Examples.text_msg] [])
    = (inr html_part, st') /\
    heap st' !! html_part = Some leaf /\
    _payload leaf = PStr "<p>hello</p>".
Proof.
  apply (eight_bit_mode_keeps_rendered_text (H := Examples.codecs)
           (__init__ (Some Examples.render) true) Examples.render
           0 Examples.text_msg "<p>hello</p>" [Examples.text_msg] []);
    reflexivity.
Defined.

(** The [MIMEText] of an ASCII text without a charset argument. *)
Lemma MIMEText_html_ascii `{Codecs} (html_str : string) :
  Str.is_ascii html_str = true ->
  Mime.MIMEText html_str "html" None
  = mkMessage [("Content-Type", "text/html; charset=" +:+ Str.quoted "us-ascii");
               ("MIME-Version", "1.0");
               ("Content-Transfer-Encoding", "7bit")]
              (PStr html_str) "text/plain".
Proof.
  intros Hascii. unfold Mime.MIMEText. rewrite Hascii.
  vm_compute. vm_compute in Hascii. rewrite !Hascii. reflexivity.
Qed.

(** The [MIMEText] of a text that is not ASCII, without a charset
    argument. *)
Lemma MIMEText_html_not_ascii `{Codecs} (html_str : string) :
  Str.is_ascii html_str = false ->
  Mime.MIMEText html_str "html" None
  = mkMessage [("Content-Type", "text/html; charset=" +:+ Str.quoted "utf-8");
               ("MIME-Version", "1.0");
               ("Content-Transfer-Encoding", "base64")]
              (PStr (let b := str_encode "utf-8" html_str in
                     if Str.is_empty b then b else base64_body_encode b))
              "text/plain".
Proof.
  intros Hascii. unfold Mime.MIMEText. rewrite Hascii.
  vm_compute. vm_compute in Hascii. rewrite !Hascii. reflexivity.
Qed.

(** Without a charset argument [MIMEText] picks a codec that takes the
    text. *)
Lemma MIMEText_error_none `{Codecs} (html_str : string) :
  Mime.MIMEText_error html_str None = None.
Proof.
  unfold Mime.MIMEText_error.
  destruct (Str.is_ascii html_str) eqn:Hascii.
  - change (Charset.output_charset (Charset.Charset "us-ascii")) with "us-ascii".
    change (Charset.converts (Charset.Charset "us-ascii")) with false.
    unfold Charset.encode_error.
    change ("us-ascii" =? "utf-8")%string with false.
    change ("us-ascii" =? "us-ascii")%string with true. cbv iota.
    now rewrite Hascii.
  - reflexivity.
Qed.

(** X10: in standard mode, when the text part declares no charset (its
    Content-Type field having no extended parameter), the HTML leaf is
    declared us-ascii and 7bit and carries the rendered text as it is if
    that text is ASCII; otherwise it is declared utf-8 and base64 and
    carries the base64 form of the encoded text. *)
Theorem standard_mode_without_charset {E : Type} `{Codecs}
    (self : MessageProcessor E) (f : Payload -> E + string)
    (msg : addr) (m : Message) (html_str : string)
    (h : list Message) (r : list Payload) :
  allow_8bit self = false ->
  h !! msg = Some m ->
  Email.plain_params m = true ->
  Email.get_content_charset m = None ->
  html_parser self = Some f ->
  f (_payload m) = inr html_str ->
  exists (st' : State) (html_part : addr) (leaf : Message),
    _create_html_message self msg (mkState h r) = (inr html_part, st') /\
    heap st' !! html_part = Some leaf /\
    (Str.is_ascii html_str = true ->
     Email.get_content_charset leaf = Some "us-ascii" /\
     Email.get "Content-Transfer-Encoding" leaf = Some "7bit" /\
     _payload leaf = PStr html_str) /\
    (Str.is_ascii html_str = false ->
     Email.get_content_charset leaf = Some "utf-8" /\
     Email.get "Content-Transfer-Encoding" leaf = Some "base64" /\
     _payload leaf = PStr (let b := str_encode "utf-8" html_str in
                           if Str.is_empty b then b else base64_body_encode b)).
Proof.
  intros H8 Hm _ Hcs Hf Hr.
  eexists _, _, _. split.
  { apply (_create_html_message_run E self f msg m html_str h r Hm Hf Hr).
    rewrite H8, Hcs. apply MIMEText_error_none. }
  cbn [heap]. split; [apply lookup_last|]. rewrite H8, Hcs. unfold html_leaf. split.
  - intros Hascii. rewrite (MIMEText_html_ascii html_str Hascii). now repeat split.
  - intros Hascii. rewrite (MIMEText_html_not_ascii html_str Hascii). now repeat split.
Qed.

Lemma standard_mode_without_charset_witness :
  exists (st' : State) (html_part : addr) (leaf : Message),
    _create_html_message (H := Examples.codecs)
      (__init__ (Some Examples.render) false) 0 (mkState [Examples.bare_msg] [])
    = (inr html_part, st') /\
    heap st' !! html_part = Some leaf /\
    Email.get_content_charset leaf = Some "us-ascii" /\
    Email.get "Content-Transfer-Encoding" leaf = Some "7bit" /\
    _payload leaf = PStr "<p>hello</p>".
Proof.
  destruct (standard_mode_without_charset (H := Examples.codecs)
              (__init__ (Some Examples.render) false) Examples.render
              0 Examples.bare_msg "<p>hello</p>" [Examples.bare_msg] []
              eq_refl eq_refl eq_refl eq_refl eq_refl eq_refl)
    as (st' & html_part & leaf & Hrun & Hleaf & Hascii & _).
  exists st', html_part, leaf.
  split; [exact Hrun|]. split; [exact Hleaf|]. apply Hascii. reflexivity.
Defined.

(** The [MIMEText] of a text with the charset utf-8. *)
Lemma MIMEText_html_utf8 `{Codecs} (html_str : string) :
  Mime.MIMEText html_str "html" (Some "utf-8")
  = mkMessage [("Content-Type", "text/html; charset=" +:+ Str.quoted "utf-8");
               ("MIME-Version", "1.0");
               ("Content-Transfer-Encoding", "base64")]
              (PStr (let b := Charset.encode "utf-8" html_str in
                     if Str.is_empty b then b else base64_body_encode b))
              "text/plain".
Proof. vm_compute. reflexivity. Qed.

(** X11: in standard mode, for a text part whose charset is utf-8, the
    HTML leaf is declared utf-8 and base64, and its payload is the base64
    form of the encoded rendered text (the empty text stays empty). *)
Theorem standard_mode_utf8_is_base64 {E : Type} `{Codecs}
    (self : MessageProcessor E) (f : Payload -> E + string)
    (msg : addr) (m : Message) (html_str : string)
    (h : list Message) (r : list Payload) :
  allow_8bit self = false ->
  h !! msg = Some m ->
  Email.get_content_charset m = Some "utf-8" ->
  html_parser self = Some f ->
  f (_payload m) = inr html_str ->
  exists (st' : State) (html_part : addr) (leaf : Message),
    _create_html_message self msg (mkState h r) = (inr html_part, st') /\
    heap st' !! html_part = Some leaf /\
    Email.get_content_type leaf = "text/html" /\
    Email.get_content_charset leaf = Some "utf-8" /\
    Email.get "Content-Transfer-Encoding" leaf = Some "base64" /\
    _payload leaf = PStr (let b := Charset.encode "utf-8" html_str in
                          if Str.is_empty b then b else base64_body_encode b).
Proof.
  intros H8 Hm Hcs Hf Hr.
  eexists _, _, _. split.
  { apply (_create_html_message_run E self f msg m html_str h r Hm Hf Hr).
    rewrite H8, Hcs. reflexivity. }
  cbn [heap]. split; [apply lookup_last|]. rewrite H8, Hcs. unfold html_leaf.
  rewrite MIMEText_html_utf8. now repeat split.
Qed.

Lemma standard_mode_utf8_is_base64_witness :
  exists (st' : State) (html_part : addr) (leaf : Message),
    _create_html_message (H := Examples.codecs)
      (__init__ (Some Examples.render) false) 0 (mkState [Examples.text_msg] [])
    = (inr html_part, st') /\
    heap st' !! html_part = Some leaf /\
    Email.get_content_type leaf = "text/html" /\
    Email.get_content_charset leaf = Some "utf-8" /\
    Email.get "Content-Transfer-Encoding" leaf = Some "base64" /\
    _payload leaf = PStr (let b := Charset.encode (H := Examples.codecs) "utf-8" "<p>hello</p>" in
                          if Str.is_empty b then b
                          else base64_body_encode (Codecs := Examples.codecs) b).
Proof.
  apply (standard_mode_utf8_is_base64 (H := Examples.codecs)
           (__init__ (Some Examples.render) false) Examples.render
           0 Examples.text_msg "<p>hello</p>" [Examples.text_msg] []);
    reflexivity.
Defined.

(** X12: the result of the plain path shares nothing with its input: the
    container and its two parts are objects that were not in the store,
    so the text part is a copy and not the message itself, and the
    message is still in the store as it was. *)
Theorem plain_path_result_is_fresh {E : Type} `{Codecs}
    (self : MessageProcessor E) (msg : addr) (m : Message)
    (h : list Message) (r : list Payload) (new_msg : addr) (st' : State) :
  h !! msg = Some m ->
  _add_html_to_plain self msg (mkState h r) = (inr new_msg, st') ->
  exists (alt : Message) (text_part html_part : addr),
    heap st' !! new_msg = Some alt /\
    _payload alt = PList [text_part; html_part] /\
    h !! new_msg = None /\ h !! text_part = None /\ h !! html_part = None /\
    new_msg <> msg /\ text_part <> msg /\ html_part <> msg /\
    heap st' !! msg = Some m.
Proof.
  intros Hm. rewrite _add_html_to_plain_cases, Hm.
  destruct (plain_mismatch m); [discriminate|].
  destruct (html_parser self) as [f|]; [|discriminate].
  destruct (f (_payload m)) as [e|html_str]; [discriminate|].
  destruct (html_leaf_error _ _ _); [discriminate|].
  intros [= <- <-]. cbn [heap]. unfold plain_heap.
  assert (Hlt : msg < length h) by (eapply lookup_lt_Some; exact Hm).
  exists (alternative_of m (length h + 1) (length h + 2)), (length h + 1), (length h + 2).
  split; [apply lookup_mid|]. split; [reflexivity|].
  repeat split; try (apply lookup_ge_None; lia); try lia.
  now apply lookup_old.
Qed.

Lemma plain_path_result_is_fresh_witness :
  exists (st' : State) (new_msg : addr),
    _add_html_to_plain (H := Examples.codecs)
      (__init__ (Some Examples.render) false) 0 Examples.text_store = (inr new_msg, st') /\
    exists (alt : Message) (text_part html_part : addr),
      heap st' !! new_msg = Some alt /\
      _payload alt = PList [text_part; html_part] /\
      heap Examples.text_store !! new_msg = None /\
      heap Examples.text_store !! text_part = None /\
      heap Examples.text_store !! html_part = None /\
      new_msg <> 0 /\ text_part <> 0 /\ html_part <> 0 /\
      heap st' !! 0 = Some Examples.text_msg.
Proof.
  assert (Hrun : { st' : State |
                   _add_html_to_plain (H := Examples.codecs)
                     (__init__ (Some Examples.render) false) 0 Examples.text_store
                   = (inr 1, st') })
    by (eexists; vm_compute; reflexivity).
  destruct Hrun as [st' Hrun].
  exists st', 1. split; [exact Hrun|].
  exact (plain_path_result_is_fresh (H := Examples.codecs)
           (__init__ (Some Examples.render) false) 0 Examples.text_msg
           [Examples.text_msg] [] 1 st' eq_refl Hrun).
Defined.

(** X13: in standard mode, for a text part whose charset is us-ascii (its
    Content-Type field having no extended parameter), rendered text that
    is not ASCII makes the construction of the HTML leaf raise
    [UnicodeError]: the codec refuses the text.  The rendering function
    has been called, and no object has been made. *)
Theorem standard_mode_us_ascii_rejects_other_text {E : Type} `{Codecs}
    (self : MessageProcessor E) (f : Payload -> E + string)
    (msg : addr) (m : Message) (html_str : string)
    (h : list Message) (r : list Payload) :
  allow_8bit self = false ->
  h !! msg = Some m ->
  Email.plain_params m = true ->
  Email.get_content_charset m = Some "us-ascii" ->
  html_parser self = Some f ->
  f (_payload m) = inr html_str ->
  Str.is_ascii html_str = false ->
  _create_html_message self msg (mkState h r)
  = (inl UnicodeError, mkState h (r ++ [_payload m])).
Proof.
  intros H8 Hm _ Hcs Hf Hr Hascii.
  apply (_create_html_message_codec E self f msg m html_str Unencodable h r Hm Hf Hr).
  rewrite H8, Hcs. unfold html_leaf_error, Mime.MIMEText_error.
  change (Charset.output_charset (Charset.Charset "us-ascii")) with "us-ascii".
  unfold Charset.encode_error.
  change ("us-ascii" =? "utf-8")%string with false.
  change ("us-ascii" =? "us-ascii")%string with true. cbv iota.
  now rewrite Hascii.
Qed.

Lemma standard_mode_us_ascii_rejects_other_text_witness :
  _create_html_message (H := Examples.codecs)
    (__init__ (Some Examples.accent_render) false) 0 (mkState [Examples.ascii_msg] [])
  = (inl UnicodeError, mkState [Examples.ascii_msg] ([] ++ [PStr "hello"])).
Proof.
  apply (standard_mode_us_ascii_rejects_other_text (H := Examples.codecs)
           (__init__ (Some Examples.accent_render) false) Examples.accent_render
           0 Examples.ascii_msg ("<p>" +:+ String (ascii_of_nat 233) "</p>")
           [Examples.ascii_msg] []);
    reflexivity.
Defined.
